(** * Notification-server discovery service (whisper/notifications/discovery.go)

    A shallow embedding of the discovery service of the notification server:
    its lifecycle ([Start], [Stop]) and its two message handlers
    ([processDiscoveryRequest], [processServerAcceptedRequest]).

    The handlers talk to collaborators that live outside discovery.go (the
    whisper node, the session registry of the hosting server, the message
    wrapping of whisperv5).  Those are kept abstract: a [Platform] gives their
    types and a [Collaborators] instance gives their operations as
    state-passing functions over the collaborators' own state.  Every call the
    service makes is also recorded, in order, in a trace of [Event]s, so that
    statements such as "exactly one message is published" or "no session is
    registered" are statements about that trace. *)

From Stdlib Require Import List String Ascii ZArith NArith Lia Bool.
From Stdlib Require Import Strings.Byte.
Import ListNotations.
Local Open Scope list_scope.
Set Warnings "-register-all".

(* ================================================================= *)
(** ** Go values: byte slices, strings, errors *)

(** A Go [[]byte] is a list of bytes; a Go [string] is an immutable sequence
    of bytes as well, which is what [String.string] is. *)
Definition bytes : Type := list byte.

(** The conversions [[]byte(s)] and [string(b)]. *)
Definition bytes_of_string (s : string) : bytes := list_byte_of_string s.
Definition string_of_bytes (b : bytes) : string := string_of_list_byte b.

(** The double-quote character (code 34) and a helper to write Go string
    literals that contain it: [jq] turns every apostrophe of its argument into
    a double quote, so [jq "{'server': '0x"] is the Go raw literal that opens
    the proposal payload. *)
Definition dquote : ascii := ascii_of_nat 34.

Fixpoint jq (s : string) : string :=
  match s with
  | EmptyString => EmptyString
  | String c r => String (if (c =? "'")%char then dquote else c) (jq r)
  end.

(** Go's [error] values, as far as discovery.go can tell them apart.

    - [errors_New text] is the value of [errors.New(text)];
    - [fmt_Errorf format a] is the value of [fmt.Errorf(format, a)] for a
      format with one [%v] verb: a fresh error whose text is the format with
      the text of [a] substituted;
    - [json_SyntaxError] and [json_UnmarshalTypeError] are the two kinds of
      error [json.Unmarshal] reports for the target type used here (the
      message and offset of a syntax error are not modelled);
    - [collaboratorError tag] is an error value made by a collaborator (the
      whisper node, the session registry); the service never inspects it. *)
Inductive error : Type :=
| errors_New (text : string)
| fmt_Errorf (format : string) (a : error)
| json_SyntaxError
| json_UnmarshalTypeError (Value : string)
| collaboratorError (tag : string).

(** Number of [fmt.Errorf] layers around an error. *)
Fixpoint wrap_depth (e : error) : nat :=
  match e with
  | fmt_Errorf _ a => S (wrap_depth a)
  | _ => O
  end.

(* ================================================================= *)
(** ** encoding/hex *)

(** [hextable] of encoding/hex: the sixteen lower-case digits. *)
Definition hextable : string := "0123456789abcdef".

Definition hex_digit (n : N) : ascii :=
  match String.get (N.to_nat n) hextable with
  | Some c => c
  | None => "0"%char
  end.

(** [hex.EncodeToString]: two lower-case hexadecimal digits per byte, high
    nibble first. *)
Fixpoint hex_EncodeToString (src : bytes) : string :=
  match src with
  | [] => EmptyString
  | b :: r =>
    let n := Byte.to_N b in
    String (hex_digit (N.shiftr n 4)) (String (hex_digit (N.land n 15)) (hex_EncodeToString r))
  end.

(* ================================================================= *)
(** ** encoding/json, for the target type of the accept handler

    [json.Unmarshal(data, &parsedMessage)] where
    [parsedMessage] is [struct { ServerID string `json:'server'` }].
    The model follows the library in its two phases: the whole input is
    first checked against the JSON grammar (any violation is a syntax error
    and the target is left untouched), then the value is stored into the
    target. *)

Inductive json : Type :=
| JNull
| JBool (b : bool)
| JNumber
| JString (raw : string)
| JArray (elems : list json)
| JObject (members : list (string * json)).

Definition byte_in (lo hi : N) (c : ascii) : bool :=
  let n := N_of_ascii c in (lo <=? n)%N && (n <=? hi)%N.

(** The scanner's [isSpace]: space, tab, carriage return, line feed. *)
Definition isSpace (c : ascii) : bool :=
  (c =? " ")%char || (c =? "009")%char || (c =? "013")%char || (c =? "010")%char.

Fixpoint skip_space (s : string) : string :=
  match s with
  | String c r => if isSpace c then skip_space r else s
  | EmptyString => s
  end.

Definition is_digit (c : ascii) : bool := byte_in 48 57 c.

Definition is_hex (c : ascii) : bool :=
  byte_in 48 57 c || byte_in 97 102 c || byte_in 65 70 c.

(** The characters the scanner accepts after a backslash, other than [u]. *)
Definition is_simple_escape (c : ascii) : bool :=
  (c =? dquote)%char || (c =? "\")%char || (c =? "/")%char || (c =? "b")%char ||
  (c =? "f")%char || (c =? "n")%char || (c =? "r")%char || (c =? "t")%char.

(** Scans a string literal whose opening quote has been consumed.  Returns the
    raw text up to the closing quote (escapes still in place) and the input
    after it.  Bytes below 0x20 are rejected; bytes from 0x80 up are accepted
    as they are. *)
Fixpoint scan_string (s : string) : option (string * string) :=
  match s with
  | EmptyString => None
  | String c r =>
    if (c =? dquote)%char then Some (EmptyString, r)
    else if (c =? "\")%char then
      match r with
      | String e r1 =>
        if is_simple_escape e then
          match scan_string r1 with
          | Some (body, rest) => Some (String c (String e body), rest)
          | None => None
          end
        else if (e =? "u")%char then
          match r1 with
          | String h1 (String h2 (String h3 (String h4 r2))) =>
            if is_hex h1 && is_hex h2 && is_hex h3 && is_hex h4 then
              match scan_string r2 with
              | Some (body, rest) =>
                Some (String c (String e (String h1 (String h2 (String h3 (String h4 body))))), rest)
              | None => None
              end
            else None
          | _ => None
          end
        else None
      | EmptyString => None
      end
    else if (N_of_ascii c <? 32)%N then None
    else
      match scan_string r with
      | Some (body, rest) => Some (String c body, rest)
      | None => None
      end
  end.

Fixpoint skip_digits (s : string) : string :=
  match s with
  | String c r => if is_digit c then skip_digits r else s
  | EmptyString => s
  end.

(** At least one digit, then as many as follow. *)
Definition scan_digits1 (s : string) : option string :=
  match s with
  | String c r => if is_digit c then Some (skip_digits r) else None
  | EmptyString => None
  end.

(** Scans a number: optional minus, [0] or a non-zero digit followed by
    digits, optional fraction, optional exponent.  Returns the input after
    the number. *)
Definition scan_number (s : string) : option string :=
  let s1 := match s with
            | String c r => if (c =? "-")%char then r else s
            | EmptyString => s
            end in
  let after_int :=
    match s1 with
    | String c r =>
      if (c =? "0")%char then Some r
      else if is_digit c then Some (skip_digits r)
      else None
    | EmptyString => None
    end in
  match after_int with
  | None => None
  | Some s2 =>
    let after_frac :=
      match s2 with
      | String c r => if (c =? ".")%char then scan_digits1 r else Some s2
      | EmptyString => Some s2
      end in
    match after_frac with
    | None => None
    | Some s3 =>
      match s3 with
      | String c r =>
        if (c =? "e")%char || (c =? "E")%char then
          match r with
          | String sg r' =>
            if (sg =? "+")%char || (sg =? "-")%char then scan_digits1 r' else scan_digits1 r
          | EmptyString => None
          end
        else Some s3
      | EmptyString => Some s3
      end
    end
  end.

(** [expect lit s]: the input after the literal [lit], if [s] starts with it. *)
Fixpoint expect (lit s : string) : option string :=
  match lit with
  | EmptyString => Some s
  | String c l =>
    match s with
    | String d r => if (c =? d)%char then expect l r else None
    | EmptyString => None
    end
  end.

(** The grammar check and the construction of the value, by recursive descent.
    [fuel] bounds the depth of the recursion; [parse_document] gives enough
    of it for any input. *)
Fixpoint parse_value (fuel : nat) (s : string) : option (json * string) :=
  match fuel with
  | O => None
  | S fuel' =>
    match skip_space s with
    | EmptyString => None
    | String c r =>
      if (c =? "{")%char then
        match skip_space r with
        | String c' r' =>
          if (c' =? "}")%char then Some (JObject [], r')
          else
            match parse_members fuel' (String c' r') with
            | Some (ms, rest) => Some (JObject ms, rest)
            | None => None
            end
        | EmptyString => None
        end
      else if (c =? "[")%char then
        match skip_space r with
        | String c' r' =>
          if (c' =? "]")%char then Some (JArray [], r')
          else
            match parse_elements fuel' (String c' r') with
            | Some (vs, rest) => Some (JArray vs, rest)
            | None => None
            end
        | EmptyString => None
        end
      else if (c =? dquote)%char then
        match scan_string r with
        | Some (raw, rest) => Some (JString raw, rest)
        | None => None
        end
      else if (c =? "t")%char then
        match expect "rue" r with Some rest => Some (JBool true, rest) | None => None end
      else if (c =? "f")%char then
        match expect "alse" r with Some rest => Some (JBool false, rest) | None => None end
      else if (c =? "n")%char then
        match expect "ull" r with Some rest => Some (JNull, rest) | None => None end
      else if (c =? "-")%char || is_digit c then
        match scan_number (String c r) with
        | Some rest => Some (JNumber, rest)
        | None => None
        end
      else None
    end
  end
with parse_elements (fuel : nat) (s : string) : option (list json * string) :=
  match fuel with
  | O => None
  | S fuel' =>
    match parse_value fuel' s with
    | Some (v, r) =>
      match skip_space r with
      | String c r' =>
        if (c =? ",")%char then
          match parse_elements fuel' r' with
          | Some (vs, rest) => Some (v :: vs, rest)
          | None => None
          end
        else if (c =? "]")%char then Some ([v], r')
        else None
      | EmptyString => None
      end
    | None => None
    end
  end
with parse_members (fuel : nat) (s : string) : option (list (string * json) * string) :=
  match fuel with
  | O => None
  | S fuel' =>
    match skip_space s with
    | String q r =>
      if (q =? dquote)%char then
        match scan_string r with
        | Some (key, r1) =>
          match skip_space r1 with
          | String colon r2 =>
            if (colon =? ":")%char then
              match parse_value fuel' r2 with
              | Some (v, r3) =>
                match skip_space r3 with
                | String c r4 =>
                  if (c =? ",")%char then
                    match parse_members fuel' r4 with
                    | Some (ms, rest) => Some ((key, v) :: ms, rest)
                    | None => None
                    end
                  else if (c =? "}")%char then Some ([(key, v)], r4)
                  else None
                | EmptyString => None
                end
              | None => None
              end
            else None
          | EmptyString => None
          end
        | None => None
        end
      else None
    | EmptyString => None
    end
  end.

(** [checkValid] and the parse of the whole input: one value, surrounded by
    white space only. *)
Definition parse_document (s : string) : option json :=
  match parse_value (2 * String.length s + 2) s with
  | Some (v, rest) =>
    match skip_space rest with
    | EmptyString => Some v
    | String _ _ => None
    end
  | None => None
  end.

(** *** Unquoting of string literals ([unquoteBytes]) *)

Definition hex_val (c : ascii) : N :=
  let n := N_of_ascii c in
  if byte_in 48 57 c then (n - 48)%N
  else if byte_in 97 102 c then (n - 87)%N
  else if byte_in 65 70 c then (n - 55)%N
  else 0%N.

Fixpoint string_drop (n : nat) (s : string) : string :=
  match n, s with
  | S n', String _ r => string_drop n' r
  | _, _ => s
  end.

Fixpoint string_take (n : nat) (s : string) : string :=
  match n, s with
  | S n', String c r => String c (string_take n' r)
  | _, _ => EmptyString
  end.

(** [getu4]: the code unit of a [\uXXXX] escape at the head of [s]; [None]
    stands for the -1 the library returns when there is none. *)
Definition getu4 (s : string) : option N :=
  match s with
  | String b (String u (String h1 (String h2 (String h3 (String h4 _))))) =>
    if (b =? "\")%char && (u =? "u")%char
       && is_hex h1 && is_hex h2 && is_hex h3 && is_hex h4
    then Some (((hex_val h1 * 16 + hex_val h2) * 16 + hex_val h3) * 16 + hex_val h4)%N
    else None
  | _ => None
  end.

(** [unicode.ReplacementChar], also [utf8.RuneError]: U+FFFD. *)
Definition RuneError : N := 65533.

Definition utf16_IsSurrogate (r : N) : bool := (55296 <=? r)%N && (r <? 57344)%N.

(** [utf16.DecodeRune]: the code point of a surrogate pair, U+FFFD when the
    two units are not a valid pair. *)
Definition utf16_DecodeRune (r1 : N) (r2 : option N) : N :=
  match r2 with
  | Some r2 =>
    if (55296 <=? r1)%N && (r1 <? 56320)%N && (56320 <=? r2)%N && (r2 <? 57344)%N
    then (N.lor (N.shiftl (r1 - 55296) 10) (r2 - 56320) + 65536)%N
    else RuneError
  | None => RuneError
  end.

Definition cont_byte (r : N) (shift : N) : ascii :=
  ascii_of_N (N.lor 128 (N.land (N.shiftr r shift) 63)).

(** [utf8.EncodeRune]. *)
Definition utf8_EncodeRune (r : N) : string :=
  if (r <=? 127)%N then String (ascii_of_N r) EmptyString
  else if (r <=? 2047)%N then
    String (ascii_of_N (N.lor 192 (N.shiftr r 6))) (String (cont_byte r 0) EmptyString)
  else if utf16_IsSurrogate r || (1114111 <? r)%N then
    String (ascii_of_N 239) (String (ascii_of_N 191) (String (ascii_of_N 189) EmptyString))
  else if (r <=? 65535)%N then
    String (ascii_of_N (N.lor 224 (N.shiftr r 12)))
      (String (cont_byte r 6) (String (cont_byte r 0) EmptyString))
  else
    String (ascii_of_N (N.lor 240 (N.shiftr r 18)))
      (String (cont_byte r 12) (String (cont_byte r 6) (String (cont_byte r 0) EmptyString))).

(** The size of the well-formed UTF-8 encoding at the head of [s], following
    the accept ranges of [utf8.DecodeRune]; [None] when the head is not the
    start of one (the library then yields U+FFFD and advances by one byte). *)
Definition utf8_size (s : string) : option nat :=
  match s with
  | EmptyString => None
  | String b0 r =>
    if byte_in 0 127 b0 then Some 1%nat
    else if byte_in 194 223 b0 then
      match r with
      | String b1 _ => if byte_in 128 191 b1 then Some 2%nat else None
      | _ => None
      end
    else if byte_in 224 239 b0 then
      match r with
      | String b1 (String b2 _) =>
        let lo := if (b0 =? ascii_of_N 224)%char then 160%N else 128%N in
        let hi := if (b0 =? ascii_of_N 237)%char then 159%N else 191%N in
        if byte_in lo hi b1 && byte_in 128 191 b2 then Some 3%nat else None
      | _ => None
      end
    else if byte_in 240 244 b0 then
      match r with
      | String b1 (String b2 (String b3 _)) =>
        let lo := if (b0 =? ascii_of_N 240)%char then 144%N else 128%N in
        let hi := if (b0 =? ascii_of_N 244)%char then 143%N else 191%N in
        if byte_in lo hi b1 && byte_in 128 191 b2 && byte_in 128 191 b3
        then Some 4%nat else None
      | _ => None
      end
    else None
  end.

(** The character a one-letter escape stands for. *)
Definition simple_escape (e : ascii) : option ascii :=
  if (e =? dquote)%char || (e =? "\")%char || (e =? "/")%char || (e =? "'")%char then Some e
  else if (e =? "b")%char then Some (ascii_of_N 8)
  else if (e =? "f")%char then Some (ascii_of_N 12)
  else if (e =? "n")%char then Some (ascii_of_N 10)
  else if (e =? "r")%char then Some (ascii_of_N 13)
  else if (e =? "t")%char then Some (ascii_of_N 9)
  else None.

Definition option_app (x : string) (rest : option string) : option string :=
  match rest with
  | Some y => Some (x ++ y)%string
  | None => None
  end.

(** [unquoteBytes] on the text between the quotes: escapes are replaced,
    surrogate pairs combined, and bytes that are not well-formed UTF-8 are
    replaced by U+FFFD.  [None] is the library's [ok = false]; it cannot
    happen on text that [scan_string] accepted.  Every step consumes at least
    one byte, so a fuel of the length of the text is enough. *)
Fixpoint unquote_from (fuel : nat) (s : string) : option string :=
  match s with
  | EmptyString => Some EmptyString
  | String c r =>
    match fuel with
    | O => None
    | S fuel' =>
      if (c =? "\")%char then
        match r with
        | EmptyString => None
        | String e r1 =>
          if (e =? "u")%char then
            match getu4 s with
            | None => None
            | Some rr =>
              let s6 := string_drop 6 s in
              if utf16_IsSurrogate rr then
                let dec := utf16_DecodeRune rr (getu4 s6) in
                if (dec =? RuneError)%N
                then option_app (utf8_EncodeRune RuneError) (unquote_from fuel' s6)
                else option_app (utf8_EncodeRune dec) (unquote_from fuel' (string_drop 6 s6))
              else option_app (utf8_EncodeRune rr) (unquote_from fuel' s6)
            end
          else
            match simple_escape e with
            | Some x => option_app (String x EmptyString) (unquote_from fuel' r1)
            | None => None
            end
        end
      else if (c =? dquote)%char || (N_of_ascii c <? 32)%N then None
      else if (N_of_ascii c <? 128)%N then
        option_app (String c EmptyString) (unquote_from fuel' r)
      else
        match utf8_size s with
        | Some n => option_app (string_take n s) (unquote_from fuel' (string_drop n s))
        | None => option_app (utf8_EncodeRune RuneError) (unquote_from fuel' r)
        end
    end
  end.

Definition unquote (raw : string) : option string :=
  unquote_from (String.length raw) raw.

(** *** Storing the value into the target struct *)

(** The anonymous struct of the accept handler: one string field, tagged
    with the JSON name [server]. *)
Record parsedMessage : Type := { ServerID : string }.

(** The zero value a [var parsedMessage struct{...}] starts with. *)
Definition parsedMessage_zero : parsedMessage := {| ServerID := EmptyString |}.

(** [errPhase] of the decoder. *)
Definition errPhase : error :=
  errors_New "JSON decoder out of sync - data changing underfoot?".

(** [equalFoldRight], the case folding the decoder picks for a field name
    that contains [s] or [k]: ASCII letters match regardless of case, and the
    long s (U+017F) and the Kelvin sign (U+212A) match [s] and [k]. *)
Fixpoint equalFoldRight (s t : string) : bool :=
  match s with
  | EmptyString => match t with EmptyString => true | String _ _ => false end
  | String sb s' =>
    match t with
    | EmptyString => false
    | String tb t' =>
      if (N_of_ascii tb <? 128)%N then
        if (sb =? tb)%char then equalFoldRight s' t'
        else
          let sbUpper := N.land (N_of_ascii sb) 223 in
          if (65 <=? sbUpper)%N && (sbUpper <=? 90)%N then
            if (sbUpper =? N.land (N_of_ascii tb) 223)%N then equalFoldRight s' t' else false
          else false
      else if (sb =? "s")%char || (sb =? "S")%char then
        match expect (utf8_EncodeRune 383) t with
        | Some t'' => equalFoldRight s' t''
        | None => false
        end
      else if (sb =? "k")%char || (sb =? "K")%char then
        match expect (utf8_EncodeRune 8490) t with
        | Some t'' => equalFoldRight s' t''
        | None => false
        end
      else false
    end
  end.

(** Does an object key select the field [ServerID]?  Exact match of the JSON
    name first, case-insensitive match otherwise. *)
Definition selects_ServerID (key : string) : bool :=
  String.eqb "server" key || equalFoldRight "server" key.

(** Storing a JSON value into a Go string: a string is stored, [null] leaves
    the field as it is, anything else is a type error and is skipped. *)
Definition store_string (v : json) (old : string) : string * option error :=
  match v with
  | JString raw =>
    match unquote raw with
    | Some s => (s, None)
    | None => (old, Some errPhase)
    end
  | JNull => (old, None)
  | JBool _ => (old, Some (json_UnmarshalTypeError "bool"))
  | JNumber => (old, Some (json_UnmarshalTypeError "number"))
  | JArray _ => (old, Some (json_UnmarshalTypeError "array"))
  | JObject _ => (old, Some (json_UnmarshalTypeError "object"))
  end.

(** [saveError]: the decoder keeps the earliest error.  That error is what
    [Unmarshal] returns, whether the decoder stops at it or skips the value
    and goes on, so the model goes on. *)
Definition saveError (saved : option error) (e : option error) : option error :=
  match saved with
  | Some _ => saved
  | None => e
  end.

(** The members of an object, in input order: a member whose key selects the
    field is stored into it (a later one overwrites an earlier one), any
    other member is skipped. *)
Fixpoint store_members (ms : list (string * json)) (pm : parsedMessage)
  (saved : option error) : parsedMessage * option error :=
  match ms with
  | [] => (pm, saved)
  | (rawkey, v) :: ms' =>
    match unquote rawkey with
    | None => (pm, Some errPhase)
    | Some key =>
      if selects_ServerID key then
        let (s, e) := store_string v (ServerID pm) in
        store_members ms' {| ServerID := s |} (saveError saved e)
      else store_members ms' pm saved
    end
  end.

(** [json.Unmarshal(data, &pm)]: the new value of [pm] and the error. *)
Definition json_Unmarshal (data : bytes) (pm : parsedMessage) : parsedMessage * option error :=
  match parse_document (string_of_bytes data) with
  | None => (pm, Some json_SyntaxError)
  | Some JNull => (pm, None)
  | Some (JObject ms) => store_members ms pm None
  | Some (JBool _) => (pm, Some (json_UnmarshalTypeError "bool"))
  | Some JNumber => (pm, Some (json_UnmarshalTypeError "number"))
  | Some (JString _) => (pm, Some (json_UnmarshalTypeError "string"))
  | Some (JArray _) => (pm, Some (json_UnmarshalTypeError "array"))
  end.

(** The JSON values that cannot be stored into a Go string: everything but
    a string and [null]. *)
Definition mismatches_string (v : json) : bool :=
  match v with
  | JString _ | JNull => false
  | JBool _ | JNumber | JArray _ | JObject _ => true
  end.

(** The type errors of storing into a Go string: an [UnmarshalTypeError]
    whose value is a boolean, a number, an array or an object. *)
Definition is_UnmarshalTypeError (e : error) : Prop :=
  exists Value : string,
    e = json_UnmarshalTypeError Value /\
    In Value ["bool"%string; "number"%string; "array"%string; "object"%string].

(** The members of an object whose keys, and whose values when they are
    strings, can be unquoted. *)
Definition members_unquote (ms : list (string * json)) : Prop :=
  Forall (fun m => unquote (fst m) <> None /\
                   forall raw, snd m = JString raw -> unquote raw <> None) ms.

(** A member of an object that leaves the field [ServerID] as it is: its key
    does not select the field, or its value is [null]. *)
Definition leaves_ServerID (m : string * json) : Prop :=
  exists key : string,
    unquote (fst m) = Some key /\ (selects_ServerID key = true -> snd m = JNull).

(** A member of an object that gives the field [ServerID] a value it cannot
    hold. *)
Definition mismatches_ServerID (m : string * json) : Prop :=
  exists key : string,
    unquote (fst m) = Some key /\ selects_ServerID key = true /\
    mismatches_string (snd m) = true.

(** Does a member of an object name the field [ServerID]? *)
Definition names_ServerID (m : string * json) : bool :=
  match unquote (fst m) with
  | Some key => selects_ServerID key
  | None => false
  end.

(** The text between the quotes of a string literal that the scanner
    accepts: plain bytes (no quote, no backslash, nothing below 0x20),
    one-letter escapes, and unicode escapes of four hexadecimal digits. *)
Inductive scanned : string -> Prop :=
| scanned_end : scanned EmptyString
| scanned_plain (c : ascii) (r : string) :
    (c =? dquote)%char = false -> (c =? "\")%char = false ->
    (N_of_ascii c <? 32)%N = false ->
    scanned r -> scanned (String c r)
| scanned_escape (e : ascii) (r : string) :
    is_simple_escape e = true -> scanned r -> scanned (String "\" (String e r))
| scanned_unicode (h1 h2 h3 h4 : ascii) (r : string) :
    is_hex h1 && is_hex h2 && is_hex h3 && is_hex h4 = true ->
    scanned r ->
    scanned (String "\" (String "u" (String h1 (String h2 (String h3 (String h4 r)))))).

(** Every key of the members can be unquoted. *)
Definition keys_unquote (ms : list (string * json)) : Prop :=
  Forall (fun m => unquote (fst m) <> None) ms.

(* ================================================================= *)
(** ** The types of the collaborators *)

(** What discovery.go takes from its imports without looking inside:
    [PublicKey] is [ecdsa.PublicKey], [float64] the type of the configured
    proof-of-work target, [SentMessage] and [Envelope] the whisperv5 types,
    and [HostState] the state of everything the service calls into (the
    whisper node with its filters and its outbound queue, the session
    registry, the source of randomness used when a message is wrapped). *)
Class Platform : Type := {
  PublicKey : Type;
  float64 : Type;
  SentMessage : Type;
  Envelope : Type;
  HostState : Type
}.

(** The constants of discovery.go. *)
Definition protocolKeyName : string := "NOTIFICATION_PROTOCOL_KEY".
Definition topicDiscoverServer : string := "DISCOVER_NOTIFICATION_SERVER".
Definition topicProposeServer : string := "PROPOSE_NOTIFICATION_SERVER".
Definition topicServerAccepted : string := "ACCEPT_NOTIFICATION_SERVER".
Definition topicAckClientSubscription : string := "ACK_NOTIFICATION_SERVER_SUBSCRIPTION".

(** The conversion [uint32(x)] of an integer. *)
Definition uint32 (x : Z) : Z := (x mod 2 ^ 32)%Z.

(** [whisper.TopicType], an array of bytes of the transport's topic width. *)
Definition TopicType : Type := bytes.

(** The two levels discovery.go logs at. *)
Inductive logLevel : Type := logger_Info | logger_Debug.

(** [messageProcessingFn]: the two methods that are handed to the request
    processor loops. *)
Inductive messageProcessingFn : Type :=
| fn_processDiscoveryRequest
| fn_processServerAcceptedRequest.

(** [ClientSession], as far as the accept handler fills it in. *)
Record ClientSession : Type := { ClientKey : string }.

Section Model.
Context {P : Platform}.

(** [whisper.ReceivedMessage]: the fields the handlers read.  [msg_Src] is
    the pointer [Src], [None] when nil. *)
Record ReceivedMessage : Type := {
  msg_Payload : bytes;
  msg_Src : option PublicKey
}.

(** [whisper.MessageParams]: the fields the handlers set (the others, [Src]
    and [Padding], keep their zero value). *)
Record MessageParams : Type := {
  Dst : option PublicKey;
  KeySym : bytes;
  Topic : TopicType;
  Payload : bytes;
  TTL : Z;
  PoW : float64;
  WorkTime : Z
}.

(** The configuration of the hosting server, as far as it is read here. *)
Record serverConfig : Type := {
  config_TTL : Z;
  config_MinimumPoW : float64
}.

(** [NotificationServer]: the fields the service reads.  The field
    [whisper] of the Go struct is the handle on the node, whose state is
    part of [HostState]. *)
Record NotificationServer : Type := {
  nodeID : string;
  protocolKey : bytes;
  config : serverConfig
}.

Record discoveryService : Type := {
  server : NotificationServer;
  discoverFilterID : string;
  serverAcceptedFilterID : string
}.

(** Every call that leaves the service, with its arguments and, where the
    service looks at it, its result. *)
Inductive Event : Type :=
| EvInstallTopicFilter (topicName : string) (topicKey : bytes) (filterID : string) (err : option error)
| EvGoRequestProcessorLoop (filterID : string) (topicName : string) (fn : messageProcessingFn)
| EvUnwatch (filterID : string)
| EvRegisterClientSession (session : ClientSession) (sessionKey : bytes) (err : option error)
| EvNewSentMessage (params : MessageParams)
| EvWrap (params : MessageParams) (env : option Envelope) (err : option error)
| EvSend (env : option Envelope) (err : option error)
| EvInfoln (level : logLevel) (text : string)
| EvInfof (level : logLevel) (format : string) (dst : option PublicKey) (topic : TopicType).

(** The operations of the collaborators.  Each takes the host state and
    returns its results, in the shape of the Go signature, with the new host
    state.  [TopicLength] and [oneWayHash] are the topic width of the
    transport and the hash that topic derivation is built on. *)
Class Collaborators : Type := {
  crypto_FromECDSAPub : PublicKey -> bytes;
  TopicLength : nat;
  oneWayHash : bytes -> bytes;
  installTopicFilter : string -> bytes -> HostState -> (string * option error) * HostState;
  whisper_Unwatch : string -> HostState -> HostState;
  RegisterClientSession : ClientSession -> HostState -> (bytes * option error) * HostState;
  whisper_NewSentMessage : MessageParams -> HostState -> SentMessage * HostState;
  SentMessage_Wrap :
    SentMessage -> MessageParams -> HostState -> (option Envelope * option error) * HostState;
  whisper_Send : option Envelope -> HostState -> option error * HostState
}.

Context {C : Collaborators}.

(** *** The state monad of the service *)

Record World : Type := {
  host : HostState;
  trace : list Event
}.

Definition M (A : Type) : Type := World -> A * World.

Definition ret {A : Type} (a : A) : M A := fun w => (a, w).

Definition bind {A B : Type} (m : M A) (k : A -> M B) : M B :=
  fun w => let (a, w') := m w in k a w'.

(** Appends an event to the trace. *)
Definition emit (e : Event) : M unit :=
  fun w => (tt, {| host := host w; trace := trace w ++ [e] |}).

(** Runs an operation of a collaborator on the host state. *)
Definition call {A : Type} (op : HostState -> A * HostState) : M A :=
  fun w => let (a, h) := op (host w) in (a, {| host := h; trace := trace w |}).

(** A computation started on a host state with an empty trace. *)
Definition run {A : Type} (m : M A) (h : HostState) : A * World :=
  m {| host := h; trace := [] |}.

End Model.

Declare Scope service_scope.
Delimit Scope service_scope with service.
Notation "x <- c ;; k" := (bind c (fun x => k))
  (at level 100, c at next level, right associativity) : service_scope.
Notation "c ;;; k" := (bind c (fun _ => k))
  (at level 100, right associativity) : service_scope.

(* ================================================================= *)
(** ** The service *)

Section Service.
Context {P : Platform} {C : Collaborators}.
Local Open Scope service_scope.

(** *** Calls to the collaborators, recorded in the trace *)

Definition do_installTopicFilter (topicName : string) (topicKey : bytes)
  : M (string * option error) :=
  r <- call (installTopicFilter topicName topicKey) ;;
  emit (EvInstallTopicFilter topicName topicKey (fst r) (snd r)) ;;;
  ret r.

(** [go s.server.requestProcessorLoop(filterID, topicName, fn)]: the loop
    runs on its own; the service only starts it. *)
Definition go_requestProcessorLoop (filterID topicName : string) (fn : messageProcessingFn)
  : M unit :=
  emit (EvGoRequestProcessorLoop filterID topicName fn).

Definition do_Unwatch (filterID : string) : M unit :=
  call (fun h => (tt, whisper_Unwatch filterID h)) ;;;
  emit (EvUnwatch filterID).

Definition do_RegisterClientSession (session : ClientSession) : M (bytes * option error) :=
  r <- call (RegisterClientSession session) ;;
  emit (EvRegisterClientSession session (fst r) (snd r)) ;;;
  ret r.

Definition do_NewSentMessage (params : MessageParams) : M SentMessage :=
  m <- call (whisper_NewSentMessage params) ;;
  emit (EvNewSentMessage params) ;;;
  ret m.

Definition do_Wrap (m : SentMessage) (params : MessageParams)
  : M (option Envelope * option error) :=
  r <- call (SentMessage_Wrap m params) ;;
  emit (EvWrap params (fst r) (snd r)) ;;;
  ret r.

Definition do_Send (env : option Envelope) : M (option error) :=
  e <- call (whisper_Send env) ;;
  emit (EvSend env e) ;;;
  ret e.

Definition glog_Infoln (level : logLevel) (text : string) : M unit :=
  emit (EvInfoln level text).

Definition glog_Infof (level : logLevel) (format : string)
  (dst : option PublicKey) (topic : TopicType) : M unit :=
  emit (EvInfof level format dst topic).

(** *** Topic derivation *)

(** Cuts or zero-pads a byte string to exactly [n] bytes. *)
Definition fit_width (n : nat) (l : bytes) : bytes :=
  firstn n (l ++ repeat x00 n).

(** Modelled from the spec: [MakeTopic] is a function of package
    notifications that is defined outside discovery.go.  The spec describes
    it as a pure function from a protocol-step name to a fixed-size topic
    value, a standard one-way hash cut and formatted to the topic width of
    the transport. *)
Definition MakeTopic (password : bytes) : TopicType :=
  fit_width TopicLength (oneWayHash password).

(** *** Lifecycle *)

Definition NewDiscoveryService (notificationServer : NotificationServer) : discoveryService :=
  {| server := notificationServer;
     discoverFilterID := EmptyString;
     serverAcceptedFilterID := EmptyString |}.

Definition set_discoverFilterID (s : discoveryService) (id : string) : discoveryService :=
  {| server := server s;
     discoverFilterID := id;
     serverAcceptedFilterID := serverAcceptedFilterID s |}.

Definition set_serverAcceptedFilterID (s : discoveryService) (id : string) : discoveryService :=
  {| server := server s;
     discoverFilterID := discoverFilterID s;
     serverAcceptedFilterID := id |}.

(** [Start]: returns the service as the assignments to its fields leave it,
    and the error. *)
Definition Start (s : discoveryService) : M (discoveryService * option error) :=
  r <- do_installTopicFilter topicDiscoverServer (protocolKey (server s)) ;;
  let s := set_discoverFilterID s (fst r) in
  match snd r with
  | Some err => ret (s, Some (fmt_Errorf "failed installing filter: %v" err))
  | None =>
    go_requestProcessorLoop (discoverFilterID s) topicDiscoverServer
      fn_processDiscoveryRequest ;;;
    r <- do_installTopicFilter topicServerAccepted (protocolKey (server s)) ;;
    let s := set_serverAcceptedFilterID s (fst r) in
    match snd r with
    | Some err => ret (s, Some (fmt_Errorf "failed installing filter: %v" err))
    | None =>
      go_requestProcessorLoop (serverAcceptedFilterID s) topicServerAccepted
        fn_processServerAcceptedRequest ;;;
      glog_Infoln logger_Info "notification server discovery service started" ;;;
      ret (s, None)
    end
  end.

Definition Stop (s : discoveryService) : M (option error) :=
  do_Unwatch (discoverFilterID s) ;;;
  do_Unwatch (serverAcceptedFilterID s) ;;;
  glog_Infoln logger_Info "notification server discovery service stopped" ;;;
  ret None.

(** *** The handlers *)

Definition processDiscoveryRequest (s : discoveryService) (msg : ReceivedMessage)
  : M (option error) :=
  let msgParams :=
    {| Dst := msg_Src msg;
       KeySym := protocolKey (server s);
       Topic := MakeTopic (bytes_of_string topicProposeServer);
       Payload := bytes_of_string (jq "{'server': '0x" ++ nodeID (server s) ++ jq "'}");
       TTL := uint32 (config_TTL (config (server s)));
       PoW := config_MinimumPoW (config (server s));
       WorkTime := 5 |} in
  response <- do_NewSentMessage msgParams ;;
  r <- do_Wrap response msgParams ;;
  match snd r with
  | Some err => ret (Some (fmt_Errorf "failed to wrap server proposal message: %v" err))
  | None =>
    e <- do_Send (fst r) ;;
    match e with
    | Some err => ret (Some (fmt_Errorf "failed to send server proposal message: %v" err))
    | None =>
      glog_Infof logger_Debug "server proposal message sent (dst: %v, topic: %x)"
        (Dst msgParams) (Topic msgParams) ;;;
      ret None
    end
  end.

Definition processServerAcceptedRequest (s : discoveryService) (msg : ReceivedMessage)
  : M (option error) :=
  let (parsedMessage, jerr) := json_Unmarshal (msg_Payload msg) parsedMessage_zero in
  match jerr with
  | Some err => ret (Some err)
  | None =>
    match msg_Src msg with
    | None => ret (Some (errors_New "message 'from' field is required"))
    | Some src =>
      if negb (String.eqb (ServerID parsedMessage) ("0x" ++ nodeID (server s)))
      then ret None
      else
        r <- do_RegisterClientSession
               {| ClientKey := hex_EncodeToString (crypto_FromECDSAPub src) |} ;;
        let sessionKey := fst r in
        match snd r with
        | Some err => ret (Some err)
        | None =>
          let msgParams :=
            {| Dst := msg_Src msg;
               KeySym := protocolKey (server s);
               Topic := MakeTopic (bytes_of_string topicAckClientSubscription);
               Payload := bytes_of_string
                            (jq "{'server': '0x" ++ nodeID (server s)
                             ++ jq "', 'key': '0x" ++ hex_EncodeToString sessionKey
                             ++ jq "'}");
               TTL := uint32 (config_TTL (config (server s)));
               PoW := config_MinimumPoW (config (server s));
               WorkTime := 5 |} in
          response <- do_NewSentMessage msgParams ;;
          r <- do_Wrap response msgParams ;;
          match snd r with
          | Some err => ret (Some (fmt_Errorf "failed to wrap server proposal message: %v" err))
          | None =>
            e <- do_Send (fst r) ;;
            match e with
            | Some err =>
              ret (Some (fmt_Errorf "failed to send server proposal message: %v" err))
            | None =>
              glog_Infof logger_Debug
                "server confirms client subscription (dst: %v, topic: %x)"
                (Dst msgParams) (Topic msgParams) ;;;
              ret None
            end
          end
        end
    end
  end.

(** The method a [messageProcessingFn] value stands for. *)
Definition apply_fn (fn : messageProcessingFn) (s : discoveryService)
  : ReceivedMessage -> M (option error) :=
  match fn with
  | fn_processDiscoveryRequest => processDiscoveryRequest s
  | fn_processServerAcceptedRequest => processServerAcceptedRequest s
  end.

End Service.

(* ================================================================= *)
(** ** What a trace shows *)

Section Observations.
Context {P : Platform}.

(** The parameter records handed over for publishing.  The transport port of
    the spec has one operation, publish of a message given as destination,
    key, topic, payload, TTL, proof-of-work target and work budget; in the
    code this is [NewSentMessage] and [Wrap] on one [MessageParams], followed
    by [Send] of the envelope when wrapping reports no error. *)
Definition submitted (tr : list Event) : list MessageParams :=
  flat_map (fun e => match e with EvWrap params _ _ => [params] | _ => [] end) tr.

(** The envelopes passed to [Send]. *)
Definition sends (tr : list Event) : list (option Envelope) :=
  flat_map (fun e => match e with EvSend env _ => [env] | _ => [] end) tr.

(** The descriptors passed to [RegisterClientSession]. *)
Definition registrations (tr : list Event) : list ClientSession :=
  flat_map (fun e => match e with EvRegisterClientSession cs _ _ => [cs] | _ => [] end) tr.

(** The filter IDs passed to [Unwatch]. *)
Definition unwatches (tr : list Event) : list string :=
  flat_map (fun e => match e with EvUnwatch id => [id] | _ => [] end) tr.

(** The topics of the messages handed over for publishing. *)
Definition topics (tr : list Event) : list TopicType :=
  map Topic (submitted tr).

Definition remove_filter (id : string) (l : list string) : list string :=
  filter (fun x => negb (String.eqb x id)) l.

(** The filters that are installed after a trace, given those installed
    before it: an installation that reported no error adds its filter,
    [Unwatch] removes one. *)
Fixpoint activeFilters (tr : list Event) (active : list string) : list string :=
  match tr with
  | [] => active
  | EvInstallTopicFilter _ _ id None :: tr' => activeFilters tr' (active ++ [id])
  | EvUnwatch id :: tr' => activeFilters tr' (remove_filter id active)
  | _ :: tr' => activeFilters tr' active
  end.

End Observations.

(* ================================================================= *)
(** ** A small host to run the service on

    A host whose behaviour is fixed by four switches, used to evaluate the
    service on concrete inputs.  Public keys are given by their marshalled
    bytes, a sent message by its payload, an envelope by the payload and the
    destination it was wrapped for. *)

Record toyHost : Type := {
  accept_filter_fails : bool;
  registry_fails : bool;
  wrap_fails : bool;
  send_fails : bool;
  toy_filters : list string;
  toy_outbox : list bytes
}.

Definition toyPlatform : Platform :=
  {| PublicKey := bytes;
     float64 := Z;
     SentMessage := bytes;
     Envelope := bytes;
     HostState := toyHost |}.

Definition toy_set_filters (h : toyHost) (l : list string) : toyHost :=
  {| accept_filter_fails := accept_filter_fails h;
     registry_fails := registry_fails h;
     wrap_fails := wrap_fails h;
     send_fails := send_fails h;
     toy_filters := l;
     toy_outbox := toy_outbox h |}.

Definition toy_set_outbox (h : toyHost) (l : list bytes) : toyHost :=
  {| accept_filter_fails := accept_filter_fails h;
     registry_fails := registry_fails h;
     wrap_fails := wrap_fails h;
     send_fails := send_fails h;
     toy_filters := toy_filters h;
     toy_outbox := l |}.

Definition toy_installTopicFilter (topicName : string) (topicKey : bytes) (h : toyHost)
  : (string * option error) * toyHost :=
  if String.eqb topicName topicServerAccepted && accept_filter_fails h
  then ((EmptyString, Some (collaboratorError "cannot install filter")), h)
  else
    let id := ("filter/" ++ topicName)%string in
    ((id, None), toy_set_filters h (toy_filters h ++ [id])).

Definition toy_Unwatch (id : string) (h : toyHost) : toyHost :=
  toy_set_filters h (remove_filter id (toy_filters h)).

Definition toy_RegisterClientSession (cs : ClientSession) (h : toyHost)
  : (bytes * option error) * toyHost :=
  if registry_fails h
  then (([], Some (collaboratorError "registry unavailable")), h)
  else (([x01; xab], None), h).

Definition toy_Wrap (m : bytes) (params : @MessageParams toyPlatform) (h : toyHost)
  : (option bytes * option error) * toyHost :=
  if wrap_fails h
  then ((None, Some (collaboratorError "proof-of-work target not reached")), h)
  else ((Some m, None), h).

Definition toy_Send (env : option bytes) (h : toyHost) : option error * toyHost :=
  if send_fails h
  then (Some (collaboratorError "envelope rejected"), h)
  else (None, toy_set_outbox h (toy_outbox h ++ match env with Some e => [e] | None => [] end)).

Definition toyCollaborators : @Collaborators toyPlatform :=
  {| crypto_FromECDSAPub := fun (pub : @PublicKey toyPlatform) => (pub : bytes);
     TopicLength := 4;
     oneWayHash := fun b => rev b;
     installTopicFilter := toy_installTopicFilter;
     whisper_Unwatch := toy_Unwatch;
     RegisterClientSession := toy_RegisterClientSession;
     whisper_NewSentMessage := fun params h => (Payload params, h);
     SentMessage_Wrap := toy_Wrap;
     whisper_Send := toy_Send |}.

(** A host on which every call succeeds, and its variants with one switch
    thrown. *)
Definition toy_ok : toyHost :=
  {| accept_filter_fails := false; registry_fails := false; wrap_fails := false;
     send_fails := false; toy_filters := []; toy_outbox := [] |}.

Definition toy_accept_filter_fails : toyHost :=
  {| accept_filter_fails := true; registry_fails := false; wrap_fails := false;
     send_fails := false; toy_filters := []; toy_outbox := [] |}.

Definition toy_registry_fails : toyHost :=
  {| accept_filter_fails := false; registry_fails := true; wrap_fails := false;
     send_fails := false; toy_filters := []; toy_outbox := [] |}.

Definition toy_wrap_fails : toyHost :=
  {| accept_filter_fails := false; registry_fails := false; wrap_fails := true;
     send_fails := false; toy_filters := []; toy_outbox := [] |}.

Definition toy_send_fails : toyHost :=
  {| accept_filter_fails := false; registry_fails := false; wrap_fails := false;
     send_fails := true; toy_filters := []; toy_outbox := [] |}.

(** The server of the scenario of the spec: identity [abcd]. *)
Definition toy_server : @NotificationServer toyPlatform :=
  {| nodeID := "abcd";
     protocolKey := [x4b];
     config := @Build_serverConfig toyPlatform 30%Z 1%Z |}.

Definition toy_service : @discoveryService toyPlatform :=
  @NewDiscoveryService toyPlatform toy_server.

(** The public key of the client of the scenario. *)
Definition toy_client : @PublicKey toyPlatform := [x04; xc1].

Definition toy_message (payload : string) (src : option (@PublicKey toyPlatform))
  : @ReceivedMessage toyPlatform :=
  {| msg_Payload := bytes_of_string payload; msg_Src := src |}.

(* ================================================================= *)
(** ** The messages of the protocol, as the spec words them *)

Section Messages.
Context {P : Platform} {C : Collaborators}.

(** The payload of a proposal: an object whose field [server] is the node
    identity with the prefix [0x]. *)
Definition proposePayload (id : string) : string :=
  (jq "{'server': '0x" ++ id ++ jq "'}")%string.

(** The payload of an acknowledgment: the field [server] as above and the
    field [key], the session key in hexadecimal with the prefix [0x]. *)
Definition ackPayload (id : string) (sessionKey : bytes) : string :=
  (jq "{'server': '0x" ++ id ++ jq "', 'key': '0x" ++ hex_EncodeToString sessionKey
   ++ jq "'}")%string.

(** A message of the protocol: addressed to [dst], keyed by the shared
    protocol key, under the topic derived from [topicName], with the
    configured TTL and minimum proof-of-work and the work budget of five. *)
Definition protocolMessage (s : discoveryService) (dst : option PublicKey)
  (topicName : string) (payload : string) : MessageParams :=
  {| Dst := dst;
     KeySym := protocolKey (server s);
     Topic := MakeTopic (bytes_of_string topicName);
     Payload := bytes_of_string payload;
     TTL := uint32 (config_TTL (config (server s)));
     PoW := config_MinimumPoW (config (server s));
     WorkTime := 5 |}.

(** The descriptor of the session of a client: its public key, marshalled
    and written in hexadecimal. *)
Definition sessionOf (src : PublicKey) : ClientSession :=
  {| ClientKey := hex_EncodeToString (crypto_FromECDSAPub src) |}.

(** What is left of a publish after the parameters [mp] have been built:
    the events, the result and the host state that follow from the results
    of [NewSentMessage], [Wrap] and [Send] on the host state [h]. *)
Definition publish_outcome (mp : MessageParams) (logFormat : string) (h : HostState)
  : option error * HostState * list Event :=
  let m := whisper_NewSentMessage mp h in
  let w := SentMessage_Wrap (fst m) mp (snd m) in
  let env := fst (fst w) in
  match snd (fst w) with
  | Some e =>
    (Some (fmt_Errorf "failed to wrap server proposal message: %v" e), snd w,
     [EvNewSentMessage mp; EvWrap mp env (Some e)])
  | None =>
    let sd := whisper_Send env (snd w) in
    match fst sd with
    | Some e =>
      (Some (fmt_Errorf "failed to send server proposal message: %v" e), snd sd,
       [EvNewSentMessage mp; EvWrap mp env None; EvSend env (Some e)])
    | None =>
      (None, snd sd,
       [EvNewSentMessage mp; EvWrap mp env None; EvSend env None;
        EvInfof logger_Debug logFormat (Dst mp) (Topic mp)])
    end
  end.

End Messages.

(* ================================================================= *)
(** ** Sequences of calls, plain text *)

Section Framing.
Context {P : Platform}.

(** A computation is framed when it only appends to the trace it is given
    and does not look at it: started on any world, it does what it does on
    the same host with an empty trace, after the events already there. *)
Definition framed {A : Type} (m : M A) : Prop :=
  forall w : World,
    m w = (fst (run m (host w)),
           {| host := host (snd (run m (host w)));
              trace := trace w ++ trace (snd (run m (host w))) |}).

(** The events of a trace that install or remove a filter or start a loop. *)
Definition lifecycle_events (tr : list Event) : list Event :=
  filter (fun e => match e with
                   | EvInstallTopicFilter _ _ _ _ => true
                   | EvGoRequestProcessorLoop _ _ _ => true
                   | EvUnwatch _ => true
                   | _ => false
                   end) tr.

(** The parameter records given to [NewSentMessage], from which the body of
    the message is made. *)
Definition built (tr : list Event) : list MessageParams :=
  flat_map (fun e => match e with EvNewSentMessage params => [params] | _ => [] end) tr.

End Framing.

(** A byte that stands for itself inside a JSON string literal and in the
    unquoted string: ASCII, not a control character, neither the quote nor
    the backslash. *)
Definition plain_ascii (c : ascii) : bool :=
  (32 <=? N_of_ascii c)%N && (N_of_ascii c <? 128)%N
  && negb (c =? dquote)%char && negb (c =? "\")%char.

Fixpoint plain_text (s : string) : bool :=
  match s with
  | EmptyString => true
  | String c r => plain_ascii c && plain_text r
  end.

(* ================================================================= *)
(** ** Two more small hosts *)

(** A host that refuses every filter. *)
Definition toy_refusing_installTopicFilter (topicName : string) (topicKey : bytes)
  (h : toyHost) : (string * option error) * toyHost :=
  ((EmptyString, Some (collaboratorError "cannot install filter")), h).

Definition toyRefusingCollaborators : @Collaborators toyPlatform :=
  {| crypto_FromECDSAPub := fun (pub : @PublicKey toyPlatform) => (pub : bytes);
     TopicLength := 4;
     oneWayHash := fun b => rev b;
     installTopicFilter := toy_refusing_installTopicFilter;
     whisper_Unwatch := toy_Unwatch;
     RegisterClientSession := toy_RegisterClientSession;
     whisper_NewSentMessage := fun params h => (Payload params, h);
     SentMessage_Wrap := toy_Wrap;
     whisper_Send := toy_Send |}.

(** A host that gives every filter an ID of its own: the topic name followed
    by the number of filters installed before it, as a letter. *)
Definition toy_fresh_installTopicFilter (topicName : string) (topicKey : bytes)
  (h : toyHost) : (string * option error) * toyHost :=
  let id := (topicName ++ String (ascii_of_nat (97 + List.length (toy_filters h)))
                                 EmptyString)%string in
  ((id, None), toy_set_filters h (toy_filters h ++ [id])).

Definition toyFreshCollaborators : @Collaborators toyPlatform :=
  {| crypto_FromECDSAPub := fun (pub : @PublicKey toyPlatform) => (pub : bytes);
     TopicLength := 4;
     oneWayHash := fun b => rev b;
     installTopicFilter := toy_fresh_installTopicFilter;
     whisper_Unwatch := toy_Unwatch;
     RegisterClientSession := toy_RegisterClientSession;
     whisper_NewSentMessage := fun params h => (Payload params, h);
     SentMessage_Wrap := toy_Wrap;
     whisper_Send := toy_Send |}.

(** A second server, with the identity [beef]. *)
Definition toy_other_service : @discoveryService toyPlatform :=
  @NewDiscoveryService toyPlatform
    {| nodeID := "beef";
       protocolKey := [x4b];
       config := @Build_serverConfig toyPlatform 30%Z 1%Z |}.

(** The accept message of the scenario, and the proposal it answers. *)
Definition toy_accept : @ReceivedMessage toyPlatform :=
  toy_message (jq "{'server': '0xabcd'}") (Some toy_client).

Definition toy_proposal (s : @discoveryService toyPlatform) : @MessageParams toyPlatform :=
  @protocolMessage toyPlatform toyCollaborators s (Some toy_client) topicProposeServer
    (proposePayload (nodeID (server s))).

(** The public key of a second client. *)
Definition toy_client2 : @PublicKey toyPlatform := [x04; xc2].

(* ================================================================= *)
(** ** Properties *)

(** Unfolds the monad and the recorded calls, so that a run becomes a nest
    of the collaborators' results. *)
Ltac unfold_service :=
  unfold run, do_NewSentMessage, do_Wrap, do_Send,
    do_RegisterClientSession, do_installTopicFilter, do_Unwatch,
    go_requestProcessorLoop, glog_Infoln, glog_Infof in *;
  unfold bind, ret, call, emit in *;
  cbn [host trace fst snd app] in *.

(** Splits the cases of the matches of a hypothesis, dropping those that
    contradict it. *)
Ltac split_match H :=
  repeat match type of H with
         | context [match ?x with _ => _ end] => destruct x eqn:?; try discriminate H
         end.

Ltac simpl_run := cbn [host trace fst snd app] in *.

(** Settles membership of an event in an explicit trace. *)
Ltac in_trace H :=
  cbn [In] in H;
  repeat match type of H with
         | _ \/ _ => destruct H as [H | H]
         | False => contradiction
         end;
  try discriminate H; try (injection H as; subst).

Section Properties.
Context {P : Platform} {C : Collaborators}.

(** An error is never equal to itself wrapped by [fmt.Errorf]. *)
Lemma fmt_Errorf_fresh : forall (format : string) (e : error), fmt_Errorf format e <> e.
Proof.
  intros format e H.
  apply (f_equal wrap_depth) in H. cbn in H. lia.
Qed.

(** Topic derivation yields a value of the topic width, whatever the hash
    returns. *)
Lemma fit_width_length : forall (n : nat) (l : bytes), List.length (fit_width n l) = n.
Proof.
  intros n l. unfold fit_width.
  rewrite length_firstn, length_app, repeat_length. lia.
Qed.

(** What a publish leaves in the trace: the parameters are handed over
    once, nothing is registered, and [Send] is called once with the wrapped
    envelope when wrapping reports no error, not at all otherwise. *)
Lemma publish_outcome_trace :
  forall (mp : MessageParams) (logFormat : string) (h : HostState),
    let tr := snd (publish_outcome mp logFormat h) in
    submitted tr = [mp] /\
    registrations tr = [] /\
    unwatches tr = [] /\
    (forall env, In (EvWrap mp env None) tr -> sends tr = [env]) /\
    (forall env e, In (EvWrap mp env (Some e)) tr -> sends tr = []).
Proof.
  intros mp logFormat h. unfold publish_outcome.
  destruct (whisper_NewSentMessage mp h) as [sm h1]. simpl_run.
  destruct (SentMessage_Wrap sm mp h1) as [[env werr] h2]. simpl_run.
  destruct werr as [e|]; simpl_run.
  - repeat split; try reflexivity; intros env' ; intros; in_trace H; reflexivity.
  - destruct (whisper_Send env h2) as [serr h3]. simpl_run.
    destruct serr as [e|]; simpl_run;
      (repeat split; try reflexivity; intros env'; intros; in_trace H; reflexivity).
Qed.

(** The run of the discovery handler, in full. *)
Lemma processDiscoveryRequest_run :
  forall (s : discoveryService) (msg : ReceivedMessage) (h : HostState),
    let mp := protocolMessage s (msg_Src msg) topicProposeServer
                (proposePayload (nodeID (server s))) in
    let out := publish_outcome mp "server proposal message sent (dst: %v, topic: %x)" h in
    run (processDiscoveryRequest s msg) h =
    (fst (fst out), {| host := snd (fst out); trace := snd out |}).
Proof.
  intros s msg h mp out. subst out. unfold publish_outcome.
  unfold processDiscoveryRequest.
  change (Build_MessageParams _ _ _ _ _ _ _) with mp.
  unfold_service.
  destruct (whisper_NewSentMessage mp h) as [sm h1]. simpl_run.
  destruct (SentMessage_Wrap sm mp h1) as [[env werr] h2]. simpl_run.
  destruct werr as [e|]; simpl_run; [reflexivity|].
  destruct (whisper_Send env h2) as [serr h3]. simpl_run.
  destruct serr as [e|]; reflexivity.
Qed.

(** The paths of the accept handler.  The payload does not decode: *)
Lemma accepted_decode_error :
  forall (s : discoveryService) (msg : ReceivedMessage) (h : HostState)
         (pm : parsedMessage) (e : error),
    json_Unmarshal (msg_Payload msg) parsedMessage_zero = (pm, Some e) ->
    run (processServerAcceptedRequest s msg) h = (Some e, {| host := h; trace := [] |}).
Proof.
  intros s msg h pm e Hj. unfold processServerAcceptedRequest. rewrite Hj. reflexivity.
Qed.

(** it decodes, and the sender is missing: *)
Lemma accepted_no_sender :
  forall (s : discoveryService) (msg : ReceivedMessage) (h : HostState) (pm : parsedMessage),
    json_Unmarshal (msg_Payload msg) parsedMessage_zero = (pm, None) ->
    msg_Src msg = None ->
    run (processServerAcceptedRequest s msg) h =
    (Some (errors_New "message 'from' field is required"), {| host := h; trace := [] |}).
Proof.
  intros s msg h pm Hj Hsrc. unfold processServerAcceptedRequest.
  rewrite Hj, Hsrc. reflexivity.
Qed.

(** it decodes, the sender is there, and another server is named: *)
Lemma accepted_other_server :
  forall (s : discoveryService) (msg : ReceivedMessage) (h : HostState)
         (pm : parsedMessage) (src : PublicKey),
    json_Unmarshal (msg_Payload msg) parsedMessage_zero = (pm, None) ->
    msg_Src msg = Some src ->
    ServerID pm <> ("0x" ++ nodeID (server s))%string ->
    run (processServerAcceptedRequest s msg) h = (None, {| host := h; trace := [] |}).
Proof.
  intros s msg h pm src Hj Hsrc Hid. unfold processServerAcceptedRequest.
  rewrite Hj, Hsrc. apply String.eqb_neq in Hid. rewrite Hid. reflexivity.
Qed.

(** this server is named, and the registry reports an error: *)
Lemma accepted_registry_error :
  forall (s : discoveryService) (msg : ReceivedMessage) (h : HostState)
         (pm : parsedMessage) (src : PublicKey)
         (sessionKey : bytes) (e : error) (h1 : HostState),
    json_Unmarshal (msg_Payload msg) parsedMessage_zero = (pm, None) ->
    msg_Src msg = Some src ->
    ServerID pm = ("0x" ++ nodeID (server s))%string ->
    RegisterClientSession (sessionOf src) h = ((sessionKey, Some e), h1) ->
    run (processServerAcceptedRequest s msg) h =
    (Some e,
     {| host := h1;
        trace := [EvRegisterClientSession (sessionOf src) sessionKey (Some e)] |}).
Proof.
  intros s msg h pm src sessionKey e h1 Hj Hsrc Hid Hreg.
  unfold processServerAcceptedRequest.
  rewrite Hj, Hsrc, Hid, String.eqb_refl. cbn [negb].
  unfold_service. fold (sessionOf src). rewrite Hreg. reflexivity.
Qed.

(** this server is named, and the registry returns a session key. *)
Lemma accepted_registered :
  forall (s : discoveryService) (msg : ReceivedMessage) (h : HostState)
         (pm : parsedMessage) (src : PublicKey) (sessionKey : bytes) (h1 : HostState),
    json_Unmarshal (msg_Payload msg) parsedMessage_zero = (pm, None) ->
    msg_Src msg = Some src ->
    ServerID pm = ("0x" ++ nodeID (server s))%string ->
    RegisterClientSession (sessionOf src) h = ((sessionKey, None), h1) ->
    let mp := protocolMessage s (Some src) topicAckClientSubscription
                (ackPayload (nodeID (server s)) sessionKey) in
    let out := publish_outcome mp
                 "server confirms client subscription (dst: %v, topic: %x)" h1 in
    run (processServerAcceptedRequest s msg) h =
    (fst (fst out),
     {| host := snd (fst out);
        trace := EvRegisterClientSession (sessionOf src) sessionKey None :: snd out |}).
Proof.
  intros s msg h pm src sessionKey h1 Hj Hsrc Hid Hreg mp out. subst out.
  unfold publish_outcome, processServerAcceptedRequest.
  rewrite Hj, Hsrc, Hid, String.eqb_refl. cbn [negb].
  unfold_service. fold (sessionOf src). rewrite Hreg. simpl_run.
  change (Build_MessageParams _ _ _ _ _ _ _) with mp.
  destruct (whisper_NewSentMessage mp h1) as [sm h2]. simpl_run.
  destruct (SentMessage_Wrap sm mp h2) as [[env werr] h3]. simpl_run.
  destruct werr as [e|]; simpl_run; [reflexivity|].
  destruct (whisper_Send env h3) as [serr h4]. simpl_run.
  destruct serr as [e|]; reflexivity.
Qed.

(** How the result of a publish goes with its trace: a failed [Send] is
    reported wrapped, a failed [Wrap] as well, and success means the envelope
    went through [Send]. *)
Lemma publish_outcome_result :
  forall (mp : MessageParams) (logFormat : string) (h : HostState),
    let out := publish_outcome mp logFormat h in
    let tr := snd out in
    (forall env e, In (EvSend env (Some e)) tr ->
       fst (fst out) = Some (fmt_Errorf "failed to send server proposal message: %v" e)) /\
    (forall env e, In (EvWrap mp env (Some e)) tr ->
       fst (fst out) = Some (fmt_Errorf "failed to wrap server proposal message: %v" e)) /\
    (fst (fst out) = None -> exists env, In (EvSend env None) tr).
Proof.
  intros mp logFormat h. unfold publish_outcome.
  destruct (whisper_NewSentMessage mp h) as [sm h1]. simpl_run.
  destruct (SentMessage_Wrap sm mp h1) as [[env werr] h2]. simpl_run.
  destruct werr as [e|]; simpl_run.
  - repeat split; intros; try discriminate; in_trace H; reflexivity.
  - destruct (whisper_Send env h2) as [serr h3]. simpl_run.
    destruct serr as [e|]; simpl_run.
    + repeat split; intros; try discriminate; in_trace H; reflexivity.
    + repeat split; intros; try (in_trace H; fail).
      exists env. cbn [In]. auto.
Qed.

(* ----------------------------------------------------------------- *)
(** *** The discovery handler *)

(** C7, as the code has it.  For every discover message with a present
    sender the handler builds one proposal: addressed to that sender, under
    the topic derived from PROPOSE_NOTIFICATION_SERVER, with the payload
    that names this node with the prefix 0x, keyed by the shared protocol
    key, with the configured TTL (as a uint32) and minimum proof-of-work.
    It gives this record, and no other, to [NewSentMessage] and then, with
    the message made from it, to [Wrap].  When [Wrap] reports no error the
    handler publishes exactly this one message: it calls [Send] once, on the
    envelope that [Wrap] returned and on the host state that [Wrap] left,
    and returns nil, or the error of [Send] wrapped.  When [Wrap] reports an
    error the handler returns it wrapped and publishes nothing.  Nothing is
    registered on either path. *)
Theorem processDiscoveryRequest_publishes_one_propose :
  forall (s : discoveryService) (msg : ReceivedMessage) (src : PublicKey) (h : HostState),
    msg_Src msg = Some src ->
    let mp :=
      {| Dst := Some src;
         KeySym := protocolKey (server s);
         Topic := MakeTopic (bytes_of_string topicProposeServer);
         Payload := bytes_of_string (jq "{'server': '0x" ++ nodeID (server s) ++ jq "'}");
         TTL := uint32 (config_TTL (config (server s)));
         PoW := config_MinimumPoW (config (server s));
         WorkTime := 5 |} in
    let m := whisper_NewSentMessage mp h in
    let w := SentMessage_Wrap (fst m) mp (snd m) in
    let env := fst (fst w) in
    let sd := whisper_Send env (snd w) in
    let out := run (processDiscoveryRequest s msg) h in
    let tr := trace (snd out) in
    built tr = [mp] /\
    submitted tr = [mp] /\
    registrations tr = [] /\
    ((0 <= config_TTL (config (server s)) < 2 ^ 32)%Z ->
     TTL mp = config_TTL (config (server s))) /\
    (snd (fst w) = None ->
       sends tr = [env] /\
       host (snd out) = snd sd /\
       fst out = match fst sd with
                 | Some e => Some (fmt_Errorf "failed to send server proposal message: %v" e)
                 | None => None
                 end /\
       tr = [EvNewSentMessage mp; EvWrap mp env None; EvSend env (fst sd)]
            ++ match fst sd with
               | Some _ => []
               | None => [EvInfof logger_Debug
                            "server proposal message sent (dst: %v, topic: %x)"
                            (Some src) (MakeTopic (bytes_of_string topicProposeServer))]
               end) /\
    (forall e, snd (fst w) = Some e ->
       sends tr = [] /\
       host (snd out) = snd w /\
       fst out = Some (fmt_Errorf "failed to wrap server proposal message: %v" e) /\
       tr = [EvNewSentMessage mp; EvWrap mp env (Some e)]).
Proof.
  intros s msg src h Hsrc mp m w env sd out tr.
  pose proof (processDiscoveryRequest_run s msg h) as Hrun. cbv zeta in Hrun.
  rewrite Hsrc in Hrun. unfold publish_outcome in Hrun.
  change (protocolMessage s (Some src) topicProposeServer (proposePayload (nodeID (server s))))
    with mp in Hrun.
  subst tr out. rewrite Hrun. clear Hrun. subst sd env w m.
  destruct (whisper_NewSentMessage mp h) as [sm h1]. cbn [fst snd].
  destruct (SentMessage_Wrap sm mp h1) as [[env werr] h2]. cbn [fst snd].
  assert (Httl : (0 <= config_TTL (config (server s)) < 2 ^ 32)%Z ->
                 TTL mp = config_TTL (config (server s))).
  { intros Hrange. subst mp. cbn [TTL]. unfold uint32. apply Z.mod_small. exact Hrange. }
  destruct werr as [e|]; cbn [fst snd host trace].
  - do 3 (split; [reflexivity|]). split; [exact Httl|].
    split; [discriminate|]. intros e' He'. injection He' as <-. repeat split.
  - destruct (whisper_Send env h2) as [serr h3]. cbn [fst snd].
    destruct serr as [e|]; cbn [fst snd host trace];
      (do 3 (split; [reflexivity|]); split; [exact Httl|];
       split; [intros _; repeat split | intros e' He'; discriminate He']).
Qed.

(* ----------------------------------------------------------------- *)
(** *** The accept handler *)

(** C3, as the code has it.  For every accept message with a present
    sender whose decoded server field is 0x followed by the identity of this
    node, the handler calls the registry exactly once, first of all, with
    the descriptor whose client key is the hexadecimal form of the
    marshalled public key of the sender.  When the registry returns a
    session key, the handler builds one acknowledgment: addressed to the
    sender, under the topic derived from
    ACK_NOTIFICATION_SERVER_SUBSCRIPTION, with the payload that carries the
    identity and that session key in hexadecimal, both with the prefix 0x.
    It gives this record, and no other, to [NewSentMessage] and then, with
    the message made from it, to [Wrap], on the host state the registry
    left.  When [Wrap] reports no error the handler publishes exactly this
    one acknowledgment: it calls [Send] once, on the envelope that [Wrap]
    returned, and returns nil, or the error of [Send] wrapped.  When [Wrap]
    reports an error the handler returns it wrapped and publishes nothing;
    the session stays registered. *)
Theorem accepted_registers_and_acknowledges :
  forall (s : discoveryService) (msg : ReceivedMessage) (src : PublicKey)
         (pm : parsedMessage) (h : HostState),
    msg_Src msg = Some src ->
    json_Unmarshal (msg_Payload msg) parsedMessage_zero = (pm, None) ->
    ServerID pm = ("0x" ++ nodeID (server s))%string ->
    let cs := {| ClientKey := hex_EncodeToString (crypto_FromECDSAPub src) |} in
    let reg := RegisterClientSession cs h in
    let sessionKey := fst (fst reg) in
    let mp :=
      {| Dst := Some src;
         KeySym := protocolKey (server s);
         Topic := MakeTopic (bytes_of_string topicAckClientSubscription);
         Payload := bytes_of_string
                      (jq "{'server': '0x" ++ nodeID (server s) ++ jq "', 'key': '0x"
                       ++ hex_EncodeToString sessionKey ++ jq "'}");
         TTL := uint32 (config_TTL (config (server s)));
         PoW := config_MinimumPoW (config (server s));
         WorkTime := 5 |} in
    let m := whisper_NewSentMessage mp (snd reg) in
    let w := SentMessage_Wrap (fst m) mp (snd m) in
    let env := fst (fst w) in
    let sd := whisper_Send env (snd w) in
    let out := run (processServerAcceptedRequest s msg) h in
    let tr := trace (snd out) in
    registrations tr = [cs] /\
    (forall e, snd (fst reg) = Some e ->
       tr = [EvRegisterClientSession cs sessionKey (Some e)] /\
       host (snd out) = snd reg /\ fst out = Some e) /\
    (snd (fst reg) = None ->
       built tr = [mp] /\
       submitted tr = [mp] /\
       (snd (fst w) = None ->
          sends tr = [env] /\
          host (snd out) = snd sd /\
          fst out = match fst sd with
                    | Some e =>
                      Some (fmt_Errorf "failed to send server proposal message: %v" e)
                    | None => None
                    end /\
          tr = [EvRegisterClientSession cs sessionKey None;
                EvNewSentMessage mp; EvWrap mp env None; EvSend env (fst sd)]
               ++ match fst sd with
                  | Some _ => []
                  | None =>
                    [EvInfof logger_Debug
                       "server confirms client subscription (dst: %v, topic: %x)"
                       (Some src) (MakeTopic (bytes_of_string topicAckClientSubscription))]
                  end) /\
       (forall e, snd (fst w) = Some e ->
          sends tr = [] /\
          host (snd out) = snd w /\
          fst out = Some (fmt_Errorf "failed to wrap server proposal message: %v" e) /\
          tr = [EvRegisterClientSession cs sessionKey None;
                EvNewSentMessage mp; EvWrap mp env (Some e)])).
Proof.
  intros s msg src pm h Hsrc Hj Hid cs reg sessionKey mp m w env sd out tr.
  change cs with (sessionOf src) in *.
  destruct (RegisterClientSession (sessionOf src) h) as [[key rerr] h1] eqn:Hreg.
  subst reg. cbn [fst snd] in *.
  destruct rerr as [e0|].
  - subst tr out.
    rewrite (accepted_registry_error s msg h pm src key e0 h1 Hj Hsrc Hid Hreg).
    cbn [fst snd host trace]. split; [reflexivity|]. split; [|discriminate].
    intros e He. injection He as <-. repeat split.
  - pose proof (accepted_registered s msg h pm src key h1 Hj Hsrc Hid Hreg) as Hrun.
    cbv zeta in Hrun. unfold publish_outcome in Hrun.
    subst sessionKey.
    change (protocolMessage s (Some src) topicAckClientSubscription
              (ackPayload (nodeID (server s)) key)) with mp in Hrun.
    subst tr out. rewrite Hrun. clear Hrun. subst sd env w m.
    destruct (whisper_NewSentMessage mp h1) as [sm h2]. cbn [fst snd].
    destruct (SentMessage_Wrap sm mp h2) as [[env werr] h3]. cbn [fst snd].
    destruct werr as [e|]; cbn [fst snd host trace].
    + split; [reflexivity|]. split; [discriminate|]. intros _.
      split; [reflexivity|]. split; [reflexivity|]. split; [discriminate|].
      intros e' He'. injection He' as <-. repeat split.
    + destruct (whisper_Send env h3) as [serr h4]. cbn [fst snd].
      destruct serr as [e|]; cbn [fst snd host trace];
        (split; [reflexivity|]; split; [discriminate|]; intros _;
         split; [reflexivity|]; split; [reflexivity|]; split;
         [intros _; repeat split | intros e' He'; discriminate He']).
Qed.

(** C4.  For every accept message with a payload that decodes and a present
    sender, whose decoded server identifier is not 0x followed by the
    identity of this node, the handler returns nil without calling the
    registry and without publishing: it makes no call at all. *)
Theorem accepted_other_server_is_ignored :
  forall (s : discoveryService) (msg : ReceivedMessage) (src : PublicKey)
         (pm : parsedMessage) (h : HostState),
    json_Unmarshal (msg_Payload msg) parsedMessage_zero = (pm, None) ->
    msg_Src msg = Some src ->
    ServerID pm <> ("0x" ++ nodeID (server s))%string ->
    let out := run (processServerAcceptedRequest s msg) h in
    fst out = None /\
    registrations (trace (snd out)) = [] /\
    submitted (trace (snd out)) = [] /\
    sends (trace (snd out)) = [] /\
    trace (snd out) = [] /\
    host (snd out) = h.
Proof.
  intros s msg src pm h Hj Hsrc Hid out. subst out.
  rewrite (accepted_other_server s msg h pm src Hj Hsrc Hid).
  repeat split.
Qed.

(** C5.  The accept handler checks in this order: the payload is decoded
    first, and a decoding error is returned whether or not the sender is
    present; then the sender, whose absence gives the error that the from
    field is required; then the server identity.  On each of the three
    paths nothing is registered and nothing is published: no call is made. *)
Theorem accepted_validation_order :
  forall (s : discoveryService) (msg : ReceivedMessage) (h : HostState),
    let dec := json_Unmarshal (msg_Payload msg) parsedMessage_zero in
    let out := run (processServerAcceptedRequest s msg) h in
    (forall e, snd dec = Some e ->
       fst out = Some e /\ trace (snd out) = [] /\ host (snd out) = h) /\
    (snd dec = None -> msg_Src msg = None ->
       fst out = Some (errors_New "message 'from' field is required") /\
       trace (snd out) = [] /\ host (snd out) = h) /\
    (snd dec = None -> msg_Src msg <> None ->
       ServerID (fst dec) <> ("0x" ++ nodeID (server s))%string ->
       fst out = None /\ trace (snd out) = [] /\ host (snd out) = h).
Proof.
  intros s msg h dec out. subst dec out.
  destruct (json_Unmarshal (msg_Payload msg) parsedMessage_zero) as [pm jerr] eqn:Hj.
  cbn [fst snd]. repeat split.
  1-3: rewrite (accepted_decode_error s msg h pm e); subst; auto.
  1-3: rewrite (accepted_no_sender s msg h pm); subst; auto.
  all: destruct (msg_Src msg) as [src|] eqn:Hsrc; [|congruence];
    rewrite (accepted_other_server s msg h pm src); subst; auto.
Qed.

(** C6.  In the accept handler, an error of the registry is returned as it
    is, and then no acknowledgment is built or published: the call to the
    registry is the only call made.  An error of [Send] is returned wrapped
    by [fmt.Errorf] with the context that sending the message failed, which
    is never the transport error itself. *)
Theorem accepted_failure_propagation :
  forall (s : discoveryService) (msg : ReceivedMessage) (src : PublicKey)
         (pm : parsedMessage) (h : HostState),
    msg_Src msg = Some src ->
    json_Unmarshal (msg_Payload msg) parsedMessage_zero = (pm, None) ->
    ServerID pm = ("0x" ++ nodeID (server s))%string ->
    let out := run (processServerAcceptedRequest s msg) h in
    let tr := trace (snd out) in
    let reg := RegisterClientSession (sessionOf src) h in
    (forall e, snd (fst reg) = Some e ->
       fst out = Some e /\
       tr = [EvRegisterClientSession (sessionOf src) (fst (fst reg)) (Some e)] /\
       submitted tr = [] /\ sends tr = []) /\
    (forall env e, In (EvSend env (Some e)) tr ->
       fst out = Some (fmt_Errorf "failed to send server proposal message: %v" e) /\
       fst out <> Some e).
Proof.
  intros s msg src pm h Hsrc Hj Hid out tr reg. subst tr out reg.
  destruct (RegisterClientSession (sessionOf src) h) as [[sessionKey rerr] h1] eqn:Hreg.
  destruct rerr as [e0|].
  - rewrite (accepted_registry_error s msg h pm src sessionKey e0 h1 Hj Hsrc Hid Hreg).
    simpl_run. split.
    + intros e He. injection He as ->. repeat split.
    + intros env e Hin. in_trace Hin.
  - rewrite (accepted_registered s msg h pm src sessionKey h1 Hj Hsrc Hid Hreg).
    simpl_run. split.
    + intros e He. discriminate He.
    + intros env e Hin. destruct Hin as [Hin | Hin]; [discriminate Hin|].
      match type of Hin with
      | In _ (snd (publish_outcome ?mp ?f ?h)) =>
        pose proof (publish_outcome_result mp f h) as (Hsend & _ & _)
      end.
      cbn zeta in Hsend. rewrite (Hsend env e Hin). split; [reflexivity|].
      intros Heq. injection Heq as Heq. exact (fmt_Errorf_fresh _ _ Heq).
Qed.

(* ----------------------------------------------------------------- *)
(** *** The keys of a parsed object can be unquoted *)

(** What [scan_string] returns as the raw text is scanned text. *)
Lemma scan_string_scanned_upto :
  forall (n : nat) (s raw rest : string),
    String.length s <= n -> scan_string s = Some (raw, rest) -> scanned raw.
Proof.
  induction n as [|n IH]; intros s raw rest Hlen H; destruct s as [|c r];
    cbn [scan_string] in H; try discriminate H.
  - cbn in Hlen. lia.
  - cbn [String.length] in Hlen.
    destruct (c =? dquote)%char eqn:Hq.
    { injection H as <- <-. constructor. }
    destruct (c =? "\")%char eqn:Hb.
    + apply Ascii.eqb_eq in Hb. subst c.
      destruct r as [|e r1]; [discriminate H|]. cbn [String.length] in Hlen.
      destruct (is_simple_escape e) eqn:He.
      * destruct (scan_string r1) as [[body rest']|] eqn:Hs; [|discriminate H].
        injection H as <- <-. apply scanned_escape; [exact He|].
        apply (IH r1 body rest'); [lia | exact Hs].
      * destruct (e =? "u")%char eqn:Hu; [|discriminate H].
        apply Ascii.eqb_eq in Hu. subst e.
        destruct r1 as [|h1 [|h2 [|h3 [|h4 r2]]]]; try discriminate H.
        cbn [String.length] in Hlen.
        destruct (is_hex h1 && is_hex h2 && is_hex h3 && is_hex h4) eqn:Hh; [|discriminate H].
        destruct (scan_string r2) as [[body rest']|] eqn:Hs; [|discriminate H].
        injection H as <- <-. apply scanned_unicode; [exact Hh|].
        apply (IH r2 body rest'); [lia | exact Hs].
    + destruct (N_of_ascii c <? 32)%N eqn:Hc; [discriminate H|].
      destruct (scan_string r) as [[body rest']|] eqn:Hs; [|discriminate H].
      injection H as <- <-. apply scanned_plain; try assumption.
      apply (IH r body rest'); [lia | exact Hs].
Qed.

(** A one-letter escape the scanner accepts is not [u] and stands for a
    character. *)
Lemma simple_escape_total :
  forall e : ascii, is_simple_escape e = true ->
    (e =? "u")%char = false /\ simple_escape e <> None.
Proof.
  intros [[] [] [] [] [] [] [] []]; vm_compute; intros H; try discriminate H;
    (split; [reflexivity | discriminate]).
Qed.

(** Prepending keeps a result. *)
Lemma option_app_some :
  forall (x : string) (rest : option string), rest <> None -> option_app x rest <> None.
Proof. intros x [y|] H; [discriminate | contradiction]. Qed.

(** A byte from 0x80 up is a plain character of a scanned text. *)
Lemma scanned_after_high :
  forall (c : ascii) (r : string),
    scanned (String c r) -> (N_of_ascii c <? 128)%N = false -> scanned r.
Proof.
  intros c r Hs Hc. inversion Hs; subst; try assumption; vm_compute in Hc; discriminate Hc.
Qed.


(** A byte in a range that starts at 0x80 or above is not ASCII. *)
Lemma byte_in_high :
  forall (lo hi : N) (b : ascii),
    byte_in lo hi b = true -> (128 <= lo)%N -> (N_of_ascii b <? 128)%N = false.
Proof.
  intros lo hi b Hb Hlo. unfold byte_in in Hb. apply andb_true_iff in Hb.
  destruct Hb as [Hb _]. apply N.leb_le in Hb. apply N.ltb_ge. lia.
Qed.

(** Past a well-formed UTF-8 sequence that starts with a byte from 0x80 up,
    the text is still scanned text, and shorter. *)
Lemma utf8_size_drop :
  forall (c : ascii) (r : string) (n : nat),
    (N_of_ascii c <? 128)%N = false ->
    utf8_size (String c r) = Some n ->
    scanned (String c r) ->
    scanned (string_drop n (String c r)) /\
    String.length (string_drop n (String c r)) <= String.length r.
Proof.
  intros c r n Hc Hsz Hs. unfold utf8_size in Hsz.
  assert (Hlow : byte_in 0 127 c = false).
  { unfold byte_in. apply N.ltb_ge in Hc. apply andb_false_iff. right.
    apply N.leb_gt. lia. }
  rewrite Hlow in Hsz.
  pose proof (scanned_after_high c r Hs Hc) as Hr.
  assert (Hcont : forall b t, scanned (String b t) -> byte_in 128 191 b = true -> scanned t).
  { intros b t Hbt Hb. apply (scanned_after_high b t Hbt).
    apply (byte_in_high 128 191 b Hb). lia. }
  destruct (byte_in 194 223 c).
  { destruct r as [|b1 r1]; [discriminate|].
    destruct (byte_in 128 191 b1) eqn:H1; [|discriminate]. injection Hsz as <-.
    cbn [string_drop String.length]. split; [|lia]. exact (Hcont b1 r1 Hr H1). }
  destruct (byte_in 224 239 c).
  { destruct r as [|b1 [|b2 r2]]; try discriminate.
    match type of Hsz with
    | (if byte_in ?lo ?hi b1 && _ then _ else _) = _ =>
      destruct (byte_in lo hi b1) eqn:H1; [|discriminate];
      assert (Hb1 : (N_of_ascii b1 <? 128)%N = false)
        by (apply (byte_in_high lo hi b1 H1); destruct (c =? _)%char; lia)
    end.
    destruct (byte_in 128 191 b2) eqn:H2; [|discriminate]. injection Hsz as <-.
    cbn [string_drop String.length]. split; [|lia].
    apply (Hcont b2 r2); [|exact H2]. exact (scanned_after_high b1 _ Hr Hb1). }
  destruct (byte_in 240 244 c); [|discriminate].
  destruct r as [|b1 [|b2 [|b3 r3]]]; try discriminate.
  match type of Hsz with
  | (if byte_in ?lo ?hi b1 && _ && _ then _ else _) = _ =>
    destruct (byte_in lo hi b1) eqn:H1; [|discriminate];
    assert (Hb1 : (N_of_ascii b1 <? 128)%N = false)
      by (apply (byte_in_high lo hi b1 H1); destruct (c =? _)%char; lia)
  end.
  destruct (byte_in 128 191 b2) eqn:H2; [|discriminate].
  destruct (byte_in 128 191 b3) eqn:H3; [|discriminate]. injection Hsz as <-.
  cbn [string_drop String.length]. split; [|lia].
  apply (Hcont b3 r3); [|exact H3]. apply (Hcont b2 _); [|exact H2].
  exact (scanned_after_high b1 _ Hr Hb1).
Qed.

(** Scanned text that starts with a unicode escape continues, after it, as
    scanned text. *)
Lemma scanned_after_getu4 :
  forall (s : string), scanned s -> getu4 s <> None ->
    scanned (string_drop 6 s) /\ 6 + String.length (string_drop 6 s) = String.length s.
Proof.
  intros s Hs Hg. unfold getu4 in Hg.
  destruct s as [|b [|u [|h1 [|h2 [|h3 [|h4 r]]]]]]; try (exfalso; apply Hg; reflexivity).
  destruct (b =? "\")%char eqn:Hb; [|exfalso; apply Hg; reflexivity].
  destruct (u =? "u")%char eqn:Hu; [|exfalso; apply Hg; reflexivity].
  apply Ascii.eqb_eq in Hb, Hu. subst b u.
  cbn [string_drop String.length]. split; [|lia].
  inversion Hs; subst.
  - match goal with H : ("\" =? "\")%char = false |- _ => vm_compute in H; discriminate H end.
  - match goal with H : is_simple_escape "u" = true |- _ => vm_compute in H; discriminate H end.
  - assumption.
Qed.

(** Unquoting scanned text does not fail, given fuel for its length. *)
Lemma unquote_from_scanned :
  forall (fuel : nat) (raw : string),
    scanned raw -> String.length raw <= fuel -> unquote_from fuel raw <> None.
Proof.
  induction fuel as [|fuel IH]; intros raw Hs Hlen.
  - destruct raw; [discriminate | cbn in Hlen; lia].
  - destruct raw as [|c r]; [discriminate|].
    cbn [String.length] in Hlen. cbn [unquote_from].
    destruct (c =? "\")%char eqn:Hb.
    + apply Ascii.eqb_eq in Hb. subst c.
      inversion Hs as [| c' r' Hq Hbs _ _ | e r' He Hr | h1 h2 h3 h4 r' Hh Hr]; subst.
      * vm_compute in Hbs. discriminate Hbs.
      * destruct (simple_escape_total e He) as [Hu Hse]. rewrite Hu.
        destruct (simple_escape e) as [x|]; [|contradiction].
        apply option_app_some. apply IH; [exact Hr | cbn [String.length] in Hlen; lia].
      * cbn [String.length] in Hlen.
        replace ("u" =? "u")%char with true by reflexivity.
        unfold getu4 at 1.
        replace ("\" =? "\")%char with true by reflexivity.
        replace ("u" =? "u")%char with true by reflexivity.
        cbn [andb]. rewrite <- !andb_assoc in Hh. rewrite <- !andb_assoc.
        rewrite Hh.
        change (string_drop 6
                  (String "\" (String "u" (String h1 (String h2 (String h3 (String h4 r')))))))
          with r'.
        match goal with
        | |- (if ?b then _ else _) <> None => destruct b
        end.
        -- match goal with
           | |- (if ?b then _ else _) <> None => destruct b eqn:Hdec
           end.
           ++ apply option_app_some. apply IH; [exact Hr | lia].
           ++ apply option_app_some.
              assert (Hg : getu4 r' <> None).
              { intros Hnone. rewrite Hnone in Hdec. cbn in Hdec. discriminate Hdec. }
              destruct (scanned_after_getu4 r' Hr Hg) as [Hr6 Hlen6].
              apply IH; [exact Hr6 | lia].
        -- apply option_app_some. apply IH; [exact Hr | lia].
    + assert (Hr : scanned r).
      { inversion Hs; subst; try assumption; vm_compute in Hb; discriminate Hb. }
      assert (Hplain : (c =? dquote)%char || (N_of_ascii c <? 32)%N = false).
      { inversion Hs; subst; try (vm_compute in Hb; discriminate Hb).
        apply orb_false_iff. split; assumption. }
      rewrite Hplain.
      destruct (N_of_ascii c <? 128)%N eqn:H128.
      * apply option_app_some. apply IH; [exact Hr | lia].
      * destruct (utf8_size (String c r)) as [n|] eqn:Hsz.
        -- destruct (utf8_size_drop c r n H128 Hsz Hs) as [Hd Hl].
           apply option_app_some. apply IH; [exact Hd | lia].
        -- apply option_app_some. apply IH; [exact Hr | lia].
Qed.

(** So the raw text of a scanned string literal can always be unquoted: the
    decoder never gets out of sync on it. *)
Lemma scan_string_unquote :
  forall (s raw rest : string), scan_string s = Some (raw, rest) -> unquote raw <> None.
Proof.
  intros s raw rest H. unfold unquote. apply unquote_from_scanned; [|lia].
  exact (scan_string_scanned_upto (String.length s) s raw rest (le_n _) H).
Qed.

(** The keys that [parse_members] returns can be unquoted. *)
Lemma parse_members_keys :
  forall (fuel : nat) (s : string) (ms : list (string * json)) (rest : string),
    parse_members fuel s = Some (ms, rest) -> keys_unquote ms.
Proof.
  induction fuel as [|fuel IH]; intros s ms rest H; [discriminate H|].
  cbn [parse_members] in H.
  destruct (skip_space s) as [|q r]; [discriminate H|].
  destruct (q =? dquote)%char; [|discriminate H].
  destruct (scan_string r) as [[key r1]|] eqn:Hkey; [|discriminate H].
  destruct (skip_space r1) as [|colon r2]; [discriminate H|].
  destruct (colon =? ":")%char; [|discriminate H].
  destruct (parse_value fuel r2) as [[v r3]|]; [|discriminate H].
  destruct (skip_space r3) as [|c r4]; [discriminate H|].
  destruct (c =? ",")%char.
  - destruct (parse_members fuel r4) as [[ms' rest']|] eqn:Hms; [|discriminate H].
    injection H as <- <-. constructor.
    + exact (scan_string_unquote r key r1 Hkey).
    + exact (IH r4 ms' rest' Hms).
  - destruct (c =? "}")%char; [|discriminate H].
    injection H as <- <-. constructor; [|constructor].
    exact (scan_string_unquote r key r1 Hkey).
Qed.

(** So can the keys of an object that [parse_value] returns, *)
Lemma parse_value_object_keys :
  forall (fuel : nat) (s : string) (ms : list (string * json)) (rest : string),
    parse_value fuel s = Some (JObject ms, rest) -> keys_unquote ms.
Proof.
  intros [|fuel] s ms rest H; [discriminate H|].
  cbn [parse_value] in H.
  destruct (skip_space s) as [|c r]; [discriminate H|].
  destruct (c =? "{")%char.
  { destruct (skip_space r) as [|c' r']; [discriminate H|].
    destruct (c' =? "}")%char.
    - injection H as <- _. constructor.
    - destruct (parse_members fuel (String c' r')) as [[ms' rest']|] eqn:Hms;
        [|discriminate H].
      injection H as <- _. exact (parse_members_keys fuel _ ms' rest' Hms). }
  split_match H; discriminate H.
Qed.

(** and those of a document that is an object. *)
Lemma parse_document_object_keys :
  forall (s : string) (ms : list (string * json)),
    parse_document s = Some (JObject ms) -> keys_unquote ms.
Proof.
  intros s ms H. unfold parse_document in H.
  destruct (parse_value (2 * String.length s + 2) s) as [[v rest]|] eqn:Hv; [|discriminate H].
  destruct (skip_space rest); [|discriminate H].
  injection H as ->. exact (parse_value_object_keys _ s ms rest Hv).
Qed.

(* ----------------------------------------------------------------- *)
(** *** What the accept handler makes of the fields of the payload *)

(** Once an error is saved, decoding the remaining members keeps an error. *)
Lemma store_members_saved :
  forall (ms : list (string * json)) (pm : parsedMessage) (e : error),
    snd (store_members ms pm (Some e)) <> None.
Proof.
  induction ms as [|[rawkey v] ms IH]; intros pm e; cbn [store_members].
  - discriminate.
  - destruct (unquote rawkey) as [key|]; [|discriminate].
    destruct (selects_ServerID key); [|apply IH].
    destruct (store_string v (ServerID pm)) as [s0 e0]. cbn [saveError]. apply IH.
Qed.

(** Members that leave the field alone leave the target and report nothing. *)
Lemma store_members_leaves :
  forall (ms : list (string * json)) (pm : parsedMessage),
    Forall leaves_ServerID ms ->
    store_members ms pm None = (pm, None).
Proof.
  induction ms as [|[rawkey v] ms IH]; intros pm Hall; cbn [store_members].
  - reflexivity.
  - inversion Hall as [|m ms' (key & Hkey & Hnull) Hrest]; subst.
    cbn [fst snd] in Hkey, Hnull. rewrite Hkey.
    destruct (selects_ServerID key).
    + rewrite (Hnull eq_refl). cbn [store_string saveError].
      destruct pm as [id]. cbn [ServerID]. apply IH. exact Hrest.
    + apply IH. exact Hrest.
Qed.

(** A member that gives the field a value of the wrong type makes the
    decoding report an error. *)
Lemma store_members_mismatch :
  forall (ms : list (string * json)) (pm : parsedMessage) (saved : option error),
    Exists mismatches_ServerID ms ->
    snd (store_members ms pm saved) <> None.
Proof.
  induction ms as [|[rawkey v] ms IH]; intros pm saved Hex; cbn [store_members].
  - inversion Hex.
  - destruct (unquote rawkey) as [key|] eqn:Hkey; [|discriminate].
    inversion Hex as [m ms' (key' & Hkey' & Hsel & Hbad) | m ms' Hrest]; subst.
    + cbn [fst snd] in Hkey', Hbad. rewrite Hkey in Hkey'. injection Hkey' as <-.
      rewrite Hsel.
      destruct v; try discriminate Hbad; cbn [store_string];
        (destruct saved; cbn [saveError]; apply store_members_saved).
    + destruct (selects_ServerID key); [|apply IH; exact Hrest].
      destruct (store_string v (ServerID pm)) as [s0 e0]. apply IH. exact Hrest.
Qed.

(** Storing the members of an object never reports a syntax error: syntax
    is settled before anything is stored. *)
Lemma store_members_not_syntax :
  forall (ms : list (string * json)) (pm : parsedMessage) (saved : option error),
    saved <> Some json_SyntaxError ->
    forall e, snd (store_members ms pm saved) = Some e -> e <> json_SyntaxError.
Proof.
  induction ms as [|[rawkey v] ms IH]; intros pm saved Hsaved e; cbn [store_members].
  - cbn [snd]. intros -> Heq. apply Hsaved. rewrite Heq. reflexivity.
  - destruct (unquote rawkey) as [key|].
    2:{ cbn [snd]. intros He. injection He as <-. discriminate. }
    destruct (selects_ServerID key); [|apply IH; exact Hsaved].
    destruct (store_string v (ServerID pm)) as [s0 e0] eqn:Hst.
    apply IH.
    destruct saved as [e1|]; cbn [saveError]; [exact Hsaved|].
    destruct v; cbn [store_string] in Hst;
      try (injection Hst as _ <-; discriminate).
    destruct (unquote raw); injection Hst as _ <-; discriminate.
Qed.

(** A string value that [parse_value] returns can be unquoted. *)
Lemma parse_value_string_unquote :
  forall (fuel : nat) (s raw rest : string),
    parse_value fuel s = Some (JString raw, rest) -> unquote raw <> None.
Proof.
  intros [|fuel] s raw rest H; [discriminate H|].
  cbn [parse_value] in H.
  destruct (skip_space s) as [|c r]; [discriminate H|].
  destruct (c =? "{")%char.
  { split_match H; discriminate H. }
  destruct (c =? "[")%char.
  { split_match H; discriminate H. }
  destruct (c =? dquote)%char.
  { destruct (scan_string r) as [[raw' rest']|] eqn:Hs; [|discriminate H].
    injection H as <- _. exact (scan_string_unquote r raw' rest' Hs). }
  split_match H; discriminate H.
Qed.

(** The members that [parse_members] returns can be unquoted. *)
Lemma parse_members_unquote :
  forall (fuel : nat) (s : string) (ms : list (string * json)) (rest : string),
    parse_members fuel s = Some (ms, rest) -> members_unquote ms.
Proof.
  induction fuel as [|fuel IH]; intros s ms rest H; [discriminate H|].
  cbn [parse_members] in H.
  destruct (skip_space s) as [|q r]; [discriminate H|].
  destruct (q =? dquote)%char; [|discriminate H].
  destruct (scan_string r) as [[key r1]|] eqn:Hkey; [|discriminate H].
  destruct (skip_space r1) as [|colon r2]; [discriminate H|].
  destruct (colon =? ":")%char; [|discriminate H].
  destruct (parse_value fuel r2) as [[v r3]|] eqn:Hv; [|discriminate H].
  assert (Hm : unquote (fst (key, v)) <> None /\
               forall raw, snd (key, v) = JString raw -> unquote raw <> None).
  { split.
    - exact (scan_string_unquote r key r1 Hkey).
    - cbn [snd]. intros raw ->. exact (parse_value_string_unquote fuel r2 raw r3 Hv). }
  destruct (skip_space r3) as [|c r4]; [discriminate H|].
  destruct (c =? ",")%char.
  - destruct (parse_members fuel r4) as [[ms' rest']|] eqn:Hms; [|discriminate H].
    injection H as <- <-. constructor; [exact Hm | exact (IH r4 ms' rest' Hms)].
  - destruct (c =? "}")%char; [|discriminate H].
    injection H as <- <-. constructor; [exact Hm | constructor].
Qed.

(** So can the members of a document that is an object. *)
Lemma parse_document_object_members :
  forall (s : string) (ms : list (string * json)),
    parse_document s = Some (JObject ms) -> members_unquote ms.
Proof.
  intros s ms H. unfold parse_document in H.
  destruct (parse_value (2 * String.length s + 2) s) as [[v rest]|] eqn:Hv; [|discriminate H].
  destruct (skip_space rest); [|discriminate H].
  injection H as ->.
  destruct (2 * String.length s + 2) as [|fuel]; [discriminate Hv|].
  cbn [parse_value] in Hv.
  destruct (skip_space s) as [|c r]; [discriminate Hv|].
  destruct (c =? "{")%char.
  { destruct (skip_space r) as [|c' r']; [discriminate Hv|].
    destruct (c' =? "}")%char.
    - injection Hv as <- _. constructor.
    - destruct (parse_members fuel (String c' r')) as [[ms' rest']|] eqn:Hms;
        [|discriminate Hv].
      injection Hv as <- _. exact (parse_members_unquote fuel _ ms' rest' Hms). }
  split_match Hv; discriminate Hv.
Qed.

(** On members that can be unquoted, the only errors of storing are type
    errors. *)
Lemma store_members_type_error :
  forall (ms : list (string * json)) (pm : parsedMessage) (saved : option error),
    members_unquote ms ->
    (forall e, saved = Some e -> is_UnmarshalTypeError e) ->
    forall e, snd (store_members ms pm saved) = Some e -> is_UnmarshalTypeError e.
Proof.
  induction ms as [|[rawkey v] ms IH]; intros pm saved Hms Hsaved e; cbn [store_members].
  - cbn [snd]. exact (Hsaved e).
  - inversion Hms as [|m ms' [Hkey Hval] Hrest]; subst. cbn [fst snd] in Hkey, Hval.
    destruct (unquote rawkey) as [key|]; [|contradiction].
    destruct (selects_ServerID key); [|apply IH; assumption].
    destruct (store_string v (ServerID pm)) as [s0 e0] eqn:Hst.
    apply IH; [exact Hrest|].
    intros e1 He1. destruct saved as [e2|]; cbn [saveError] in He1.
    + apply Hsaved. exact He1.
    + subst e0. destruct v; cbn [store_string] in Hst.
      * discriminate Hst.
      * injection Hst as _ <-. exists "bool"%string. split; [reflexivity | cbn [In]; auto 10].
      * injection Hst as _ <-. exists "number"%string. split; [reflexivity | cbn [In]; auto 10].
      * destruct (unquote raw) eqn:Hraw.
        -- discriminate Hst.
        -- exfalso. exact (Hval raw eq_refl Hraw).
      * injection Hst as _ <-. exists "array"%string. split; [reflexivity | cbn [In]; auto 10].
      * injection Hst as _ <-. exists "object"%string. split; [reflexivity | cbn [In]; auto 10].
Qed.

(** In a parsed object whose members that name the server field all hold
    null, every member leaves the field alone. *)
Lemma absent_or_null_leaves :
  forall ms : list (string * json),
    keys_unquote ms ->
    (forall m, In m ms -> names_ServerID m = true -> snd m = JNull) ->
    Forall leaves_ServerID ms.
Proof.
  intros ms Hkeys Hnull. apply Forall_forall. intros m Hin.
  pose proof (proj1 (Forall_forall _ _) Hkeys m Hin) as Hkey. cbn beta in Hkey.
  pose proof (Hnull m Hin) as Hm. unfold names_ServerID in Hm.
  destruct (unquote (fst m)) as [key|] eqn:Hu; [|contradiction].
  exists key. split; [exact Hu | exact Hm].
Qed.

(** A member that names the server field and holds a value of the wrong
    type is a mismatch. *)
Lemma wrong_type_mismatches :
  forall ms : list (string * json),
    (exists m, In m ms /\ names_ServerID m = true /\ mismatches_string (snd m) = true) ->
    Exists mismatches_ServerID ms.
Proof.
  intros ms (m & Hin & Hname & Hbad). apply Exists_exists. exists m. split; [exact Hin|].
  unfold names_ServerID in Hname.
  destruct (unquote (fst m)) as [key|] eqn:Hu; [|discriminate Hname].
  exists key. split; [exact Hu | split; assumption].
Qed.

(** C9, as the code has it.  For an accept message with a present sender
    whose payload is a JSON object: when no member has a key that selects
    the server field (the key server itself, or a key that matches it
    without regard to case, which is how the decoder matches keys to
    fields), or every member with such a key holds null (the empty object
    among them), decoding reports no error and leaves the server identifier
    empty, which differs from 0x followed by the node identity, and the
    handler returns nil without any call.  When a member with such a key
    holds a number, a boolean, an array or an object, decoding reports a
    type error, not a syntax error, and the handler returns it without any
    call; a payload that is not JSON is returned as a syntax error in the
    same way. *)
Theorem accepted_server_field_absent_or_null :
  forall (s : discoveryService) (msg : ReceivedMessage) (src : PublicKey) (h : HostState),
    msg_Src msg = Some src ->
    let doc := parse_document (string_of_bytes (msg_Payload msg)) in
    let out := run (processServerAcceptedRequest s msg) h in
    (forall ms, doc = Some (JObject ms) ->
       (forall m, In m ms -> names_ServerID m = true -> snd m = JNull) ->
       json_Unmarshal (msg_Payload msg) parsedMessage_zero = (parsedMessage_zero, None) /\
       ServerID parsedMessage_zero <> ("0x" ++ nodeID (server s))%string /\
       fst out = None /\ trace (snd out) = [] /\ host (snd out) = h) /\
    (forall ms, doc = Some (JObject ms) ->
       (exists m, In m ms /\ names_ServerID m = true /\ mismatches_string (snd m) = true) ->
       exists e, fst out = Some e /\ is_UnmarshalTypeError e /\ e <> json_SyntaxError /\
                 snd (json_Unmarshal (msg_Payload msg) parsedMessage_zero) = Some e /\
                 trace (snd out) = [] /\ host (snd out) = h) /\
    (doc = None ->
       fst out = Some json_SyntaxError /\ trace (snd out) = [] /\ host (snd out) = h).
Proof.
  intros s msg src h Hsrc doc out. subst doc out. split; [|split].
  - intros ms Hdoc Hnull.
    pose proof (absent_or_null_leaves ms (parse_document_object_keys _ ms Hdoc) Hnull)
      as Hall.
    assert (Hj : json_Unmarshal (msg_Payload msg) parsedMessage_zero
                 = (parsedMessage_zero, None)).
    { unfold json_Unmarshal. rewrite Hdoc. apply store_members_leaves. exact Hall. }
    assert (Hid : ServerID parsedMessage_zero <> ("0x" ++ nodeID (server s))%string).
    { cbn. discriminate. }
    rewrite (accepted_other_server s msg h parsedMessage_zero src Hj Hsrc Hid).
    repeat split; assumption.
  - intros ms Hdoc Hbad.
    pose proof (wrong_type_mismatches ms Hbad) as Hex.
    pose proof (store_members_mismatch ms parsedMessage_zero None Hex) as Herr.
    pose proof (store_members_type_error ms parsedMessage_zero None
                  (parse_document_object_members _ ms Hdoc)) as Hkind.
    destruct (store_members ms parsedMessage_zero None) as [pm jerr] eqn:Hst.
    cbn [snd] in Herr, Hkind.
    destruct jerr as [e|]; [|congruence].
    exists e.
    assert (Hj : json_Unmarshal (msg_Payload msg) parsedMessage_zero = (pm, Some e)).
    { unfold json_Unmarshal. rewrite Hdoc. exact Hst. }
    assert (Htype : is_UnmarshalTypeError e).
    { apply Hkind; [intros e' He'; discriminate He' | reflexivity]. }
    rewrite (accepted_decode_error s msg h pm e Hj), Hj. repeat split.
    + exact Htype.
    + destruct Htype as (v & -> & _). discriminate.
  - intros Hdoc.
    assert (Hj : json_Unmarshal (msg_Payload msg) parsedMessage_zero
                 = (parsedMessage_zero, Some json_SyntaxError)).
    { unfold json_Unmarshal. rewrite Hdoc. reflexivity. }
    rewrite (accepted_decode_error s msg h _ _ Hj). repeat split.
Qed.

(* ----------------------------------------------------------------- *)
(** *** Lifecycle *)

(** C1, as the code has it.  When the installation of the Discover filter
    succeeds and that of the ServerAccepted filter fails, [Start] returns
    the error wrapped by [fmt.Errorf] as a failure to install a filter, and
    does not undo the first installation: it makes no call to [Unwatch], the
    Discover filter is still installed, its request processor loop has been
    started, and its ID is kept in [discoverFilterID]. *)
Theorem Start_partial_start_is_kept :
  forall (s : discoveryService) (h h1 h2 : HostState) (id1 id2 : string) (e : error),
    installTopicFilter topicDiscoverServer (protocolKey (server s)) h = ((id1, None), h1) ->
    installTopicFilter topicServerAccepted (protocolKey (server s)) h1 = ((id2, Some e), h2) ->
    let out := run (Start s) h in
    snd (fst out) = Some (fmt_Errorf "failed installing filter: %v" e) /\
    trace (snd out) =
      [EvInstallTopicFilter topicDiscoverServer (protocolKey (server s)) id1 None;
       EvGoRequestProcessorLoop id1 topicDiscoverServer fn_processDiscoveryRequest;
       EvInstallTopicFilter topicServerAccepted (protocolKey (server s)) id2 (Some e)] /\
    unwatches (trace (snd out)) = [] /\
    activeFilters (trace (snd out)) [] = [id1] /\
    discoverFilterID (fst (fst out)) = id1 /\
    host (snd out) = h2.
Proof.
  intros s h h1 h2 id1 id2 e H1 H2 out. subst out.
  unfold Start. unfold_service. rewrite H1. simpl_run.
  cbn [set_discoverFilterID server discoverFilterID]. rewrite H2. simpl_run.
  repeat split.
Qed.

(** C10.  [Stop] returns nil and calls [Unwatch] on the two stored filter
    IDs, in this order, whatever the state of the service and of the host:
    also on a service that was never started, where both IDs are the empty
    string, and also when it is called twice in a row. *)
Theorem Stop_unwatches_both_and_returns_nil :
  forall (s : discoveryService) (h : HostState),
    let out := run (Stop s) h in
    let twice := run (bind (Stop s) (fun r1 => bind (Stop s) (fun r2 => ret (r1, r2)))) h in
    fst out = None /\
    unwatches (trace (snd out)) = [discoverFilterID s; serverAcceptedFilterID s] /\
    trace (snd out) =
      [EvUnwatch (discoverFilterID s); EvUnwatch (serverAcceptedFilterID s);
       EvInfoln logger_Info "notification server discovery service stopped"] /\
    host (snd out) =
      whisper_Unwatch (serverAcceptedFilterID s) (whisper_Unwatch (discoverFilterID s) h) /\
    (forall srv : NotificationServer,
       unwatches (trace (snd (run (Stop (NewDiscoveryService srv)) h)))
       = [EmptyString; EmptyString]) /\
    fst twice = (None, None) /\
    unwatches (trace (snd twice)) =
      [discoverFilterID s; serverAcceptedFilterID s;
       discoverFilterID s; serverAcceptedFilterID s].
Proof.
  intros s h. cbv zeta. unfold Stop. unfold_service. repeat split.
Qed.

(* ----------------------------------------------------------------- *)
(** *** Topic derivation *)

(** The topics the accept handler publishes under: none, or the one derived
    from ACK_NOTIFICATION_SERVER_SUBSCRIPTION. *)
Lemma accepted_topics :
  forall (s : discoveryService) (msg : ReceivedMessage) (h : HostState),
    let tr := trace (snd (run (processServerAcceptedRequest s msg) h)) in
    topics tr = [] \/
    topics tr = [MakeTopic (bytes_of_string topicAckClientSubscription)].
Proof.
  intros s msg h tr. subst tr.
  destruct (json_Unmarshal (msg_Payload msg) parsedMessage_zero) as [pm jerr] eqn:Hj.
  destruct jerr as [e|].
  { rewrite (accepted_decode_error s msg h pm e Hj). left. reflexivity. }
  destruct (msg_Src msg) as [src|] eqn:Hsrc.
  2:{ rewrite (accepted_no_sender s msg h pm Hj Hsrc). left. reflexivity. }
  destruct (String.eqb (ServerID pm) ("0x" ++ nodeID (server s))) eqn:Hid.
  2:{ apply String.eqb_neq in Hid.
      rewrite (accepted_other_server s msg h pm src Hj Hsrc Hid). left. reflexivity. }
  apply String.eqb_eq in Hid.
  destruct (RegisterClientSession (sessionOf src) h) as [[sessionKey rerr] h1] eqn:Hreg.
  destruct rerr as [e|].
  - rewrite (accepted_registry_error s msg h pm src sessionKey e h1 Hj Hsrc Hid Hreg).
    left. reflexivity.
  - rewrite (accepted_registered s msg h pm src sessionKey h1 Hj Hsrc Hid Hreg).
    right. simpl_run.
    match goal with
    | |- context [publish_outcome ?mp ?f ?h] =>
      pose proof (publish_outcome_trace mp f h) as (Hsub & _)
    end.
    cbn zeta in Hsub. unfold topics.
    change (submitted (?e :: ?t)) with (submitted t). rewrite Hsub. reflexivity.
Qed.

(** C8.  Topic derivation is a total function of the name alone: it yields a
    value of the topic width for every name, equal names give equal topics,
    and at its two call sites the topic does not depend on the service, on
    the message or on the state of the host: any two runs of the discovery
    handler publish under the same topic, the one derived from
    PROPOSE_NOTIFICATION_SERVER, and the accept handler publishes, if at
    all, under the one derived from ACK_NOTIFICATION_SERVER_SUBSCRIPTION. *)
Theorem MakeTopic_is_a_function_of_the_name :
  (forall name : bytes, List.length (MakeTopic name) = TopicLength) /\
  (forall name1 name2 : bytes, name1 = name2 -> MakeTopic name1 = MakeTopic name2) /\
  (forall (s1 s2 : discoveryService) (m1 m2 : ReceivedMessage) (h1 h2 : HostState),
     topics (trace (snd (run (processDiscoveryRequest s1 m1) h1)))
     = [MakeTopic (bytes_of_string topicProposeServer)] /\
     topics (trace (snd (run (processDiscoveryRequest s1 m1) h1)))
     = topics (trace (snd (run (processDiscoveryRequest s2 m2) h2)))) /\
  (forall (s : discoveryService) (m : ReceivedMessage) (h : HostState),
     Forall (eq (MakeTopic (bytes_of_string topicAckClientSubscription)))
       (topics (trace (snd (run (processServerAcceptedRequest s m) h))))).
Proof.
  assert (Hprop : forall (s : discoveryService) (m : ReceivedMessage) (h : HostState),
             topics (trace (snd (run (processDiscoveryRequest s m) h)))
             = [MakeTopic (bytes_of_string topicProposeServer)]).
  { intros s m h. rewrite processDiscoveryRequest_run. simpl_run.
    match goal with
    | |- context [publish_outcome ?mp ?f ?h] =>
      pose proof (publish_outcome_trace mp f h) as (Hsub & _)
    end.
    cbn zeta in Hsub. unfold topics. rewrite Hsub. reflexivity. }
  split; [|split; [|split]].
  - intros name. apply fit_width_length.
  - intros name1 name2 Heq. rewrite Heq. reflexivity.
  - intros s1 s2 m1 m2 h1 h2. rewrite !Hprop. split; reflexivity.
  - intros s m h. destruct (accepted_topics s m h) as [Ht | Ht]; rewrite Ht.
    + constructor.
    + constructor; [reflexivity | constructor].
Qed.

End Properties.

(* ================================================================= *)
(** ** The service on the small host *)

(** C1 at a concrete host: the Discover filter is installed, the
    ServerAccepted filter is refused. *)
Lemma Start_partial_start_is_kept_witness :
  activeFilters
    (trace (snd (run (Start (P := toyPlatform) (C := toyCollaborators) toy_service)
                     toy_accept_filter_fails))) []
  = ["filter/DISCOVER_NOTIFICATION_SERVER"%string].
Proof.
  exact (proj1 (proj2 (proj2 (proj2
    (Start_partial_start_is_kept (P := toyPlatform) (C := toyCollaborators)
       toy_service toy_accept_filter_fails
       (toy_set_filters toy_accept_filter_fails ["filter/DISCOVER_NOTIFICATION_SERVER"%string])
       (toy_set_filters toy_accept_filter_fails ["filter/DISCOVER_NOTIFICATION_SERVER"%string])
       "filter/DISCOVER_NOTIFICATION_SERVER" EmptyString
       (collaboratorError "cannot install filter")
       eq_refl eq_refl))))).
Defined.

(** C1 as claimed fails there: the first installation succeeded, the second
    failed, [Start] returned an error, and yet no [Unwatch] was called and
    the Discover filter is still installed, in the trace and on the host. *)
Lemma Start_partial_start_counterexample :
  let out := run (Start (P := toyPlatform) (C := toyCollaborators) toy_service)
                 toy_accept_filter_fails in
  In (EvInstallTopicFilter topicDiscoverServer [x4b]
        "filter/DISCOVER_NOTIFICATION_SERVER" None) (trace (snd out)) /\
  In (EvInstallTopicFilter topicServerAccepted [x4b] EmptyString
        (Some (collaboratorError "cannot install filter"))) (trace (snd out)) /\
  snd (fst out) <> None /\
  ~ In (EvUnwatch "filter/DISCOVER_NOTIFICATION_SERVER") (trace (snd out)) /\
  activeFilters (trace (snd out)) [] <> [] /\
  toy_filters (host (snd out)) = ["filter/DISCOVER_NOTIFICATION_SERVER"%string].
Proof.
  vm_compute. repeat split; try discriminate.
  - left. reflexivity.
  - right. right. left. reflexivity.
  - intros H. repeat (destruct H as [H | H]; [discriminate H|]). exact H.
Qed.

(** C2 at a concrete message: a discover message without sender.  The
    handler does not reject it: it wraps a proposal with no destination,
    sends it and returns nil. *)
Lemma processDiscoveryRequest_without_sender_publishes :
  let msg := toy_message EmptyString None in
  let out := run (processDiscoveryRequest (P := toyPlatform) (C := toyCollaborators)
                    toy_service msg) toy_ok in
  msg_Src msg = None /\
  fst out = None /\
  fst out <> Some (errors_New "message 'from' field is required") /\
  map Dst (submitted (trace (snd out))) = [None] /\
  sends (trace (snd out)) = [Some (bytes_of_string (proposePayload "abcd"))] /\
  toy_outbox (host (snd out)) = [bytes_of_string (proposePayload "abcd")].
Proof.
  vm_compute. repeat split; discriminate.
Qed.

(** C7 at the scenario of the spec: the client sends a discover message,
    and the proposal reaches the outbox of the host. *)
Lemma processDiscoveryRequest_publishes_one_propose_witness :
  let out := run (processDiscoveryRequest (P := toyPlatform) (C := toyCollaborators)
                    toy_service (toy_message EmptyString (Some toy_client))) toy_ok in
  toy_outbox (host (snd out)) = [bytes_of_string (jq "{'server': '0xabcd'}")] /\
  fst out = None.
Proof.
  destruct (processDiscoveryRequest_publishes_one_propose
              (P := toyPlatform) (C := toyCollaborators)
              toy_service (toy_message EmptyString (Some toy_client)) toy_client toy_ok
              eq_refl) as (_ & _ & _ & _ & Hok & _).
  destruct (Hok eq_refl) as (_ & Hhost & Hres & _).
  cbv zeta. split.
  - rewrite Hhost. reflexivity.
  - rewrite Hres. reflexivity.
Defined.

(** C7 as claimed fails on a host where wrapping fails: the discover
    message has a sender, and yet no proposal is published: [Send] is not
    called, the outbox of the host stays empty, and the handler returns an
    error. *)
Lemma processDiscoveryRequest_wrap_failure_counterexample :
  let msg := toy_message EmptyString (Some toy_client) in
  let out := run (processDiscoveryRequest (P := toyPlatform) (C := toyCollaborators)
                    toy_service msg) toy_wrap_fails in
  msg_Src msg = Some toy_client /\
  sends (trace (snd out)) = [] /\
  toy_outbox (host (snd out)) = [] /\
  fst out = Some (fmt_Errorf "failed to wrap server proposal message: %v"
                    (collaboratorError "proof-of-work target not reached")).
Proof.
  vm_compute. repeat split.
Qed.

(** C3 at the scenario of the spec: the client accepts this server, is
    registered, and the acknowledgment with the session key reaches the
    outbox of the host. *)
Lemma accepted_registers_and_acknowledges_witness :
  let out := run (processServerAcceptedRequest (P := toyPlatform) (C := toyCollaborators)
                    toy_service
                    (toy_message (jq "{'server': '0xabcd'}") (Some toy_client)))
                 toy_ok in
  registrations (trace (snd out)) = [ {| ClientKey := "04c1" |} ] /\
  toy_outbox (host (snd out))
  = [bytes_of_string (jq "{'server': '0xabcd', 'key': '0x01ab'}")] /\
  fst out = None.
Proof.
  destruct (accepted_registers_and_acknowledges (P := toyPlatform) (C := toyCollaborators)
              toy_service (toy_message (jq "{'server': '0xabcd'}") (Some toy_client))
              toy_client {| ServerID := "0xabcd" |} toy_ok eq_refl eq_refl eq_refl)
    as (Hregs & _ & Hok).
  destruct (Hok eq_refl) as (_ & _ & Hsent & _).
  destruct (Hsent eq_refl) as (_ & Hhost & Hres & _).
  cbv zeta. split; [exact Hregs|]. split.
  - rewrite Hhost. reflexivity.
  - rewrite Hres. reflexivity.
Defined.

(** C3 as claimed fails on a host where wrapping fails: the accept message
    names this server and has a sender, the registry returns a session key,
    and yet no acknowledgment is published: [Send] is not called, the outbox
    of the host stays empty, and the handler returns an error. *)
Lemma accepted_wrap_failure_counterexample :
  let msg := toy_message (jq "{'server': '0xabcd'}") (Some toy_client) in
  let out := run (processServerAcceptedRequest (P := toyPlatform) (C := toyCollaborators)
                    toy_service msg) toy_wrap_fails in
  msg_Src msg = Some toy_client /\
  json_Unmarshal (msg_Payload msg) parsedMessage_zero = ({| ServerID := "0xabcd" |}, None) /\
  In (EvRegisterClientSession {| ClientKey := "04c1" |} [x01; xab] None) (trace (snd out)) /\
  sends (trace (snd out)) = [] /\
  toy_outbox (host (snd out)) = [] /\
  fst out = Some (fmt_Errorf "failed to wrap server proposal message: %v"
                    (collaboratorError "proof-of-work target not reached")).
Proof.
  vm_compute. repeat split. left. reflexivity.
Qed.

(** C4 at a concrete message: the client accepts another server. *)
Lemma accepted_other_server_is_ignored_witness :
  fst (run (processServerAcceptedRequest (P := toyPlatform) (C := toyCollaborators)
              toy_service (toy_message (jq "{'server': '0xbeef'}") (Some toy_client)))
           toy_ok)
  = None.
Proof.
  refine (proj1
    (accepted_other_server_is_ignored (P := toyPlatform) (C := toyCollaborators)
       toy_service (toy_message (jq "{'server': '0xbeef'}") (Some toy_client)) toy_client
       {| ServerID := "0xbeef" |} toy_ok eq_refl eq_refl _)).
  vm_compute. discriminate.
Defined.

(** C5 at a concrete message: a payload that is not JSON, and no sender.
    The decoding error wins. *)
Lemma accepted_validation_order_witness :
  fst (run (processServerAcceptedRequest (P := toyPlatform) (C := toyCollaborators)
              toy_service (toy_message "{" None)) toy_ok)
  = Some json_SyntaxError.
Proof.
  exact (proj1 (proj1
    (accepted_validation_order (P := toyPlatform) (C := toyCollaborators)
       toy_service (toy_message "{" None) toy_ok) json_SyntaxError eq_refl)).
Defined.

(** C6 at two concrete hosts: the registry fails, [Send] fails. *)
Lemma accepted_failure_propagation_witness :
  fst (run (processServerAcceptedRequest (P := toyPlatform) (C := toyCollaborators)
              toy_service (toy_message (jq "{'server': '0xabcd'}") (Some toy_client)))
           toy_registry_fails)
  = Some (collaboratorError "registry unavailable") /\
  fst (run (processServerAcceptedRequest (P := toyPlatform) (C := toyCollaborators)
              toy_service (toy_message (jq "{'server': '0xabcd'}") (Some toy_client)))
           toy_send_fails)
  = Some (fmt_Errorf "failed to send server proposal message: %v"
            (collaboratorError "envelope rejected")).
Proof.
  split.
  - exact (proj1 (proj1
      (accepted_failure_propagation (P := toyPlatform) (C := toyCollaborators)
         toy_service (toy_message (jq "{'server': '0xabcd'}") (Some toy_client)) toy_client
         {| ServerID := "0xabcd" |} toy_registry_fails eq_refl eq_refl eq_refl)
      (collaboratorError "registry unavailable") eq_refl)).
  - refine (proj1 (proj2
      (accepted_failure_propagation (P := toyPlatform) (C := toyCollaborators)
         toy_service (toy_message (jq "{'server': '0xabcd'}") (Some toy_client)) toy_client
         {| ServerID := "0xabcd" |} toy_send_fails eq_refl eq_refl eq_refl)
      (Some (bytes_of_string (ackPayload "abcd" [x01; xab])))
      (collaboratorError "envelope rejected") _)).
    vm_compute. right. right. right. left. reflexivity.
Defined.

(** C8 at the name of the discover topic. *)
Lemma MakeTopic_is_a_function_of_the_name_witness :
  MakeTopic (P := toyPlatform) (C := toyCollaborators)
    (bytes_of_string "DISCOVER_NOTIFICATION_SERVER")
  = MakeTopic (P := toyPlatform) (C := toyCollaborators)
      (bytes_of_string topicDiscoverServer).
Proof.
  exact (proj1 (proj2
    (MakeTopic_is_a_function_of_the_name (P := toyPlatform) (C := toyCollaborators)))
    (bytes_of_string "DISCOVER_NOTIFICATION_SERVER") (bytes_of_string topicDiscoverServer)
    eq_refl).
Defined.

(** The decoder on a few payloads: the accept message of the scenario, a
    key in another case, the empty object, a null field, a number in the
    field, a document that is not an object, and text that is not JSON. *)
Lemma json_Unmarshal_examples :
  let decode := fun payload : string =>
    json_Unmarshal (bytes_of_string (jq payload)) parsedMessage_zero in
  decode "{'server': '0xabcd'}"%string = ({| ServerID := "0xabcd" |}, None) /\
  decode "{'SERVER': '0xabcd'}"%string = ({| ServerID := "0xabcd" |}, None) /\
  decode "{}"%string = (parsedMessage_zero, None) /\
  decode "{'server': null}"%string = (parsedMessage_zero, None) /\
  decode "{'server': 5}"%string = (parsedMessage_zero, Some (json_UnmarshalTypeError "number"%string)) /\
  decode "[]"%string = (parsedMessage_zero, Some (json_UnmarshalTypeError "array"%string)) /\
  decode "{'server': "%string = (parsedMessage_zero, Some json_SyntaxError) /\
  decode ""%string = (parsedMessage_zero, Some json_SyntaxError).
Proof.
  vm_compute. repeat split.
Qed.

(** The proposal of a server is, as it stands, an accept message for it: its
    payload decodes to the identity that the accept handler compares with. *)
Lemma proposal_names_this_server :
  json_Unmarshal (bytes_of_string (proposePayload "abcd")) parsedMessage_zero
  = ({| ServerID := "0xabcd" |}, None).
Proof.
  vm_compute. reflexivity.
Qed.

(** The decoder matches keys without regard to case: an accept message
    whose key is written in capitals names this server all the same, and the
    sender is registered. *)
Lemma accepted_key_in_capitals_registers :
  registrations
    (trace (snd (run (processServerAcceptedRequest (P := toyPlatform) (C := toyCollaborators)
                        toy_service
                        (toy_message (jq "{'SERVER': '0xabcd'}") (Some toy_client)))
                     toy_ok)))
  = [ {| ClientKey := "04c1" |} ].
Proof.
  vm_compute. reflexivity.
Qed.

(** C9 at the empty object: no error, no call. *)
Lemma accepted_server_field_absent_or_null_witness :
  fst (run (processServerAcceptedRequest (P := toyPlatform) (C := toyCollaborators)
              toy_service (toy_message "{}" (Some toy_client))) toy_ok)
  = None.
Proof.
  refine (proj1 (proj2 (proj2 (proj1
    (accepted_server_field_absent_or_null (P := toyPlatform) (C := toyCollaborators)
       toy_service (toy_message "{}" (Some toy_client)) toy_client toy_ok eq_refl)
    [] eq_refl _)))).
  intros m Hin. destruct Hin.
Defined.

(** C9 as claimed fails on a server field that holds a number: the payload
    is JSON, and the handler returns the decoding error. *)
Lemma accepted_non_string_server_counterexample :
  let payload := jq "{'server': 5}" in
  let out := run (processServerAcceptedRequest (P := toyPlatform) (C := toyCollaborators)
                    toy_service (toy_message payload (Some toy_client))) toy_ok in
  parse_document payload = Some (JObject [("server"%string, JNumber)]) /\
  fst out = Some (json_UnmarshalTypeError "number") /\
  fst out <> None /\
  fst out <> Some json_SyntaxError.
Proof.
  vm_compute. repeat split; discriminate.
Qed.

(* ================================================================= *)
(** ** Further properties of the lifecycle *)

Section Lifecycle.
Context {P : Platform} {C : Collaborators}.

(** Both installations succeed: [Start] returns nil, keeps the two filter
    IDs in the service, and has started one request processor loop per
    filter, each on the ID and topic of its filter and with its own handler:
    the discovery handler on the Discover filter, the accept handler on the
    ServerAccepted filter.  The server of the service is left as it was. *)
Theorem Start_success :
  forall (s : discoveryService) (h h1 h2 : HostState) (id1 id2 : string),
    installTopicFilter topicDiscoverServer (protocolKey (server s)) h = ((id1, None), h1) ->
    installTopicFilter topicServerAccepted (protocolKey (server s)) h1 = ((id2, None), h2) ->
    let out := run (Start s) h in
    snd (fst out) = None /\
    fst (fst out) =
      {| server := server s; discoverFilterID := id1; serverAcceptedFilterID := id2 |} /\
    trace (snd out) =
      [EvInstallTopicFilter topicDiscoverServer (protocolKey (server s)) id1 None;
       EvGoRequestProcessorLoop id1 topicDiscoverServer fn_processDiscoveryRequest;
       EvInstallTopicFilter topicServerAccepted (protocolKey (server s)) id2 None;
       EvGoRequestProcessorLoop id2 topicServerAccepted fn_processServerAcceptedRequest;
       EvInfoln logger_Info "notification server discovery service started"] /\
    host (snd out) = h2 /\
    activeFilters (trace (snd out)) [] = [id1; id2] /\
    unwatches (trace (snd out)) = [].
Proof.
  intros s h h1 h2 id1 id2 H1 H2 out. subst out.
  unfold Start. unfold_service. rewrite H1. simpl_run.
  cbn [set_discoverFilterID server discoverFilterID]. rewrite H2. simpl_run.
  repeat split.
Qed.

(** The first installation fails: [Start] returns the error wrapped as a
    failure to install a filter and stops there.  It does not try the second
    filter and starts no loop; the only call it has made is the failed
    installation, so no filter is installed.  The ID that came back with
    the error is stored all the same. *)
Theorem Start_first_filter_fails :
  forall (s : discoveryService) (h h1 : HostState) (id1 : string) (e : error),
    installTopicFilter topicDiscoverServer (protocolKey (server s)) h = ((id1, Some e), h1) ->
    let out := run (Start s) h in
    snd (fst out) = Some (fmt_Errorf "failed installing filter: %v" e) /\
    trace (snd out) =
      [EvInstallTopicFilter topicDiscoverServer (protocolKey (server s)) id1 (Some e)] /\
    host (snd out) = h1 /\
    fst (fst out) =
      {| server := server s; discoverFilterID := id1;
         serverAcceptedFilterID := serverAcceptedFilterID s |} /\
    activeFilters (trace (snd out)) [] = [].
Proof.
  intros s h h1 id1 e H1 out. subst out.
  unfold Start. unfold_service. rewrite H1. simpl_run. repeat split.
Qed.


(** [Start] is not made to be called twice: a second [Start] installs a
    second pair of filters and overwrites the two stored IDs, so that a
    following [Stop] removes the second pair only.  When the second pair
    has IDs of its own, the first pair stays installed. *)
Theorem Start_twice_leaks_first_filters :
  forall (s : discoveryService) (h h1 h2 h3 h4 : HostState) (id1 id2 id3 id4 : string),
    installTopicFilter topicDiscoverServer (protocolKey (server s)) h = ((id1, None), h1) ->
    installTopicFilter topicServerAccepted (protocolKey (server s)) h1 = ((id2, None), h2) ->
    installTopicFilter topicDiscoverServer (protocolKey (server s)) h2 = ((id3, None), h3) ->
    installTopicFilter topicServerAccepted (protocolKey (server s)) h3 = ((id4, None), h4) ->
    id1 <> id3 -> id1 <> id4 -> id2 <> id3 -> id2 <> id4 ->
    let out := run (bind (Start s) (fun r1 =>
                    bind (Start (fst r1)) (fun r2 => Stop (fst r2)))) h in
    fst out = None /\
    unwatches (trace (snd out)) = [id3; id4] /\
    activeFilters (trace (snd out)) [] = [id1; id2].
Proof.
  intros s h h1 h2 h3 h4 id1 id2 id3 id4 H1 H2 H3 H4 N13 N14 N23 N24 out. subst out.
  unfold Start, Stop. unfold_service. rewrite H1. simpl_run.
  cbn [set_discoverFilterID server discoverFilterID]. rewrite H2. simpl_run.
  cbn [set_serverAcceptedFilterID set_discoverFilterID server discoverFilterID
       serverAcceptedFilterID].
  rewrite H3. simpl_run.
  cbn [set_serverAcceptedFilterID set_discoverFilterID server discoverFilterID
       serverAcceptedFilterID].
  rewrite H4. simpl_run.
  cbn [set_serverAcceptedFilterID set_discoverFilterID server discoverFilterID
       serverAcceptedFilterID].
  split; [reflexivity|]. split; [reflexivity|].
  cbn [activeFilters app]. unfold remove_filter. cbn [filter].
  apply String.eqb_neq in N13, N14, N23, N24.
  rewrite N13, N23, String.eqb_refl. cbn [negb filter].
  destruct (String.eqb id4 id3); cbn [negb filter];
    rewrite N14, N24, ?String.eqb_refl; reflexivity.
Qed.

End Lifecycle.

(* ================================================================= *)
(** ** Further properties of the handlers *)

Section Handlers.
Context {P : Platform} {C : Collaborators}.

(** *** Framing *)

Lemma framed_ret : forall (A : Type) (a : A), framed (ret a).
Proof.
  intros A a w. unfold run, ret. cbn [fst snd host trace].
  rewrite app_nil_r. destruct w; reflexivity.
Qed.

Lemma framed_emit : forall e : Event, framed (emit e).
Proof. intros e w. reflexivity. Qed.

Lemma framed_call :
  forall (A : Type) (op : HostState -> A * HostState), framed (call op).
Proof.
  intros A op w. unfold run, call. cbn [host trace].
  destruct (op (host w)) as [a h]. cbn [fst snd host trace].
  rewrite app_nil_r. reflexivity.
Qed.

Lemma framed_bind :
  forall (A B : Type) (m : M A) (k : A -> M B),
    framed m -> (forall a, framed (k a)) -> framed (bind m k).
Proof.
  intros A B m k Hm Hk w. unfold run, bind.
  pose proof (Hm w) as Em. unfold run in Em. rewrite Em. clear Em.
  destruct (m {| host := host w; trace := [] |}) as [a w1]. cbn [fst snd host trace].
  pose proof (Hk a {| host := host w1; trace := trace w ++ trace w1 |}) as Ek.
  unfold run in Ek. cbn [host trace] in Ek. rewrite Ek. clear Ek.
  pose proof (Hk a w1) as Ek. unfold run in Ek. rewrite Ek. clear Ek.
  cbn [fst snd host trace]. rewrite app_assoc. reflexivity.
Qed.

(** Builds the framing of a computation from the framing of its parts. *)
Ltac framing :=
  repeat first
    [ apply framed_ret | apply framed_emit | apply framed_call
    | apply framed_bind; [|intros]
    | match goal with
      | |- framed (match ?x with _ => _ end) => destruct x
      | |- framed (if ?x then _ else _) => destruct x
      end ].

Lemma framed_processDiscoveryRequest :
  forall (s : discoveryService) (msg : ReceivedMessage),
    framed (processDiscoveryRequest s msg).
Proof.
  intros s msg. unfold processDiscoveryRequest, do_NewSentMessage, do_Wrap, do_Send,
    glog_Infof.
  framing.
Qed.

Lemma framed_processServerAcceptedRequest :
  forall (s : discoveryService) (msg : ReceivedMessage),
    framed (processServerAcceptedRequest s msg).
Proof.
  intros s msg.
  unfold processServerAcceptedRequest, do_RegisterClientSession, do_NewSentMessage,
    do_Wrap, do_Send, glog_Infof.
  framing.
Qed.

(** A computation followed by a framed one: the second runs on the host
    state the first has left, and the traces follow each other. *)
Lemma run_bind :
  forall (A B : Type) (m : M A) (k : A -> M B) (h : HostState),
    (forall a, framed (k a)) ->
    run (bind m k) h =
    (fst (run (k (fst (run m h))) (host (snd (run m h)))),
     {| host := host (snd (run (k (fst (run m h))) (host (snd (run m h)))));
        trace := trace (snd (run m h))
                 ++ trace (snd (run (k (fst (run m h))) (host (snd (run m h))))) |}).
Proof.
  intros A B m k h Hk. unfold run at 1. unfold bind.
  change (m {| host := h; trace := [] |}) with (run m h).
  destruct (run m h) as [a w1]. cbn [fst snd]. apply Hk.
Qed.

(** *** The shape of the traces *)

Lemma publish_outcome_lifecycle :
  forall (mp : MessageParams) (logFormat : string) (h : HostState),
    lifecycle_events (snd (publish_outcome mp logFormat h)) = [].
Proof.
  intros mp logFormat h. unfold publish_outcome.
  destruct (whisper_NewSentMessage mp h) as [sm h1]. simpl_run.
  destruct (SentMessage_Wrap sm mp h1) as [[env werr] h2]. simpl_run.
  destruct werr as [e|]; simpl_run; [reflexivity|].
  destruct (whisper_Send env h2) as [serr h3]. simpl_run.
  destruct serr as [e|]; reflexivity.
Qed.

(** A trace without lifecycle events leaves the installed filters as they
    are. *)
Lemma activeFilters_without_lifecycle :
  forall (tr : list Event) (active : list string),
    lifecycle_events tr = [] -> activeFilters tr active = active.
Proof.
  induction tr as [|e tr IH]; intros active H; [reflexivity|].
  destruct e; cbn in H; try discriminate H; cbn [activeFilters]; apply IH; exact H.
Qed.

(** The accept handler makes no call at all, or only the call to the
    registry, which reported an error that the handler returns, or that
    call, which returned a session key, followed by the publishing of the
    acknowledgment, whose result the handler returns. *)
Lemma accepted_trace_shape :
  forall (s : discoveryService) (msg : ReceivedMessage) (h : HostState),
    let out := run (processServerAcceptedRequest s msg) h in
    let tr := trace (snd out) in
    tr = [] \/
    (exists src sessionKey e,
        msg_Src msg = Some src /\
        fst out = Some e /\
        tr = [EvRegisterClientSession (sessionOf src) sessionKey (Some e)]) \/
    (exists src sessionKey h1,
        msg_Src msg = Some src /\
        RegisterClientSession (sessionOf src) h = ((sessionKey, None), h1) /\
        let po := publish_outcome
                    (protocolMessage s (Some src) topicAckClientSubscription
                       (ackPayload (nodeID (server s)) sessionKey))
                    "server confirms client subscription (dst: %v, topic: %x)" h1 in
        fst out = fst (fst po) /\
        tr = EvRegisterClientSession (sessionOf src) sessionKey None :: snd po).
Proof.
  intros s msg h out tr. subst tr out.
  destruct (json_Unmarshal (msg_Payload msg) parsedMessage_zero) as [pm jerr] eqn:Hj.
  destruct jerr as [e|].
  { rewrite (accepted_decode_error s msg h pm e Hj). left. reflexivity. }
  destruct (msg_Src msg) as [src|] eqn:Hsrc.
  2:{ rewrite (accepted_no_sender s msg h pm Hj Hsrc). left. reflexivity. }
  destruct (String.eqb (ServerID pm) ("0x" ++ nodeID (server s))) eqn:Hid.
  2:{ apply String.eqb_neq in Hid.
      rewrite (accepted_other_server s msg h pm src Hj Hsrc Hid). left. reflexivity. }
  apply String.eqb_eq in Hid.
  destruct (RegisterClientSession (sessionOf src) h) as [[sessionKey rerr] h1] eqn:Hreg.
  destruct rerr as [e|].
  - rewrite (accepted_registry_error s msg h pm src sessionKey e h1 Hj Hsrc Hid Hreg).
    right. left. exists src, sessionKey, e. repeat split.
  - rewrite (accepted_registered s msg h pm src sessionKey h1 Hj Hsrc Hid Hreg).
    right. right. exists src, sessionKey, h1.
    split; [reflexivity|]. split; [exact Hreg|]. split; reflexivity.
Qed.

(** The three outcomes of a publish, by the events it leaves. *)
Lemma publish_outcome_cases :
  forall (mp : MessageParams) (logFormat : string) (h : HostState),
    let po := publish_outcome mp logFormat h in
    (exists env e,
        fst (fst po) = Some (fmt_Errorf "failed to wrap server proposal message: %v" e) /\
        snd po = [EvNewSentMessage mp; EvWrap mp env (Some e)]) \/
    (exists env e,
        fst (fst po) = Some (fmt_Errorf "failed to send server proposal message: %v" e) /\
        snd po = [EvNewSentMessage mp; EvWrap mp env None; EvSend env (Some e)]) \/
    (exists env,
        fst (fst po) = None /\
        snd po = [EvNewSentMessage mp; EvWrap mp env None; EvSend env None;
                  EvInfof logger_Debug logFormat (Dst mp) (Topic mp)]).
Proof.
  intros mp logFormat h. unfold publish_outcome.
  destruct (whisper_NewSentMessage mp h) as [sm h1]. simpl_run.
  destruct (SentMessage_Wrap sm mp h1) as [[env werr] h2]. simpl_run.
  destruct werr as [e|]; simpl_run.
  { left. exists env, e. split; reflexivity. }
  destruct (whisper_Send env h2) as [serr h3]. simpl_run.
  destruct serr as [e|]; simpl_run.
  - right. left. exists env, e. split; reflexivity.
  - right. right. exists env. split; reflexivity.
Qed.

(** *** The discovery handler *)

(** The failures of the discovery handler.  When wrapping fails the handler
    returns the error wrapped as a failure to wrap and never calls [Send];
    when [Send] fails it returns the error wrapped as a failure to send,
    never the error itself, and does not try again.  It returns nil exactly
    when the envelope went through [Send], and it calls [Send] at most once
    in any case. *)
Theorem processDiscoveryRequest_failures :
  forall (s : discoveryService) (msg : ReceivedMessage) (h : HostState),
    let out := run (processDiscoveryRequest s msg) h in
    let tr := trace (snd out) in
    (forall mp env e, In (EvWrap mp env (Some e)) tr ->
       fst out = Some (fmt_Errorf "failed to wrap server proposal message: %v" e) /\
       sends tr = []) /\
    (forall env e, In (EvSend env (Some e)) tr ->
       fst out = Some (fmt_Errorf "failed to send server proposal message: %v" e) /\
       fst out <> Some e /\
       sends tr = [env]) /\
    (fst out = None <-> exists env, In (EvSend env None) tr) /\
    (List.length (sends tr) <= 1)%nat.
Proof.
  intros s msg h out tr. subst tr out. rewrite processDiscoveryRequest_run. simpl_run.
  match goal with
  | |- context [publish_outcome ?mp ?f ?h] =>
    destruct (publish_outcome_cases mp f h)
      as [(env0 & e0 & Hres & Htr) | [(env0 & e0 & Hres & Htr) | (env0 & Hres & Htr)]];
    cbv zeta in Hres, Htr; rewrite Hres, Htr
  end.
  - split; [|split; [|split]].
    + intros mp env e Hin. in_trace Hin. split; reflexivity.
    + intros env e Hin. in_trace Hin.
    + split; [discriminate|]. intros [env Hin]. in_trace Hin.
    + cbn. lia.
  - split; [|split; [|split]].
    + intros mp env e Hin. in_trace Hin.
    + intros env e Hin. in_trace Hin. split; [reflexivity|]. split; [|reflexivity].
      intros Heq. injection Heq as Heq. exact (fmt_Errorf_fresh _ _ Heq).
    + split; [discriminate|]. intros [env Hin]. in_trace Hin.
    + cbn. lia.
  - split; [|split; [|split]].
    + intros mp env e Hin. in_trace Hin.
    + intros env e Hin. in_trace Hin.
    + split; [|reflexivity]. intros _. exists env0. cbn [In]. auto.
    + cbn. lia.
Qed.

(** The discovery handler does not read the payload: two messages from the
    same sender, or two messages without sender, are handled alike,
    whatever they carry. *)
Theorem processDiscoveryRequest_ignores_payload :
  forall (s : discoveryService) (m1 m2 : ReceivedMessage) (h : HostState),
    msg_Src m1 = msg_Src m2 ->
    run (processDiscoveryRequest s m1) h = run (processDiscoveryRequest s m2) h.
Proof.
  intros s m1 m2 h Hsrc. rewrite !processDiscoveryRequest_run. rewrite Hsrc. reflexivity.
Qed.

(** *** The accept handler *)


(** What the accept handler hands over for publishing: nothing, or the
    acknowledgment for the sender with the session key of the registry. *)
Lemma accepted_submitted :
  forall (s : discoveryService) (msg : ReceivedMessage) (h : HostState),
    let tr := trace (snd (run (processServerAcceptedRequest s msg) h)) in
    submitted tr = [] \/
    exists src sessionKey,
      msg_Src msg = Some src /\
      submitted tr = [protocolMessage s (Some src) topicAckClientSubscription
                        (ackPayload (nodeID (server s)) sessionKey)].
Proof.
  intros s msg h tr.
  destruct (accepted_trace_shape s msg h)
    as [Hnil | [(src & key & e0 & Hsrc & _ & Htr)
               | (src & key & h1 & Hsrc & _ & _ & Htr)]];
    fold tr in Hnil || fold tr in Htr.
  - left. rewrite Hnil. reflexivity.
  - left. rewrite Htr. reflexivity.
  - right. exists src, key. split; [exact Hsrc|]. rewrite Htr.
    change (submitted (?e :: ?t)) with (submitted t).
    match goal with
    | |- context [publish_outcome ?mp ?f ?h] =>
      exact (proj1 (publish_outcome_trace mp f h))
    end.
Qed.

(** *** Both handlers *)

(** Neither handler installs or removes a filter or starts a loop: whatever
    the message and the host, the filters that are installed stay as they
    are. *)
Theorem handlers_leave_filters_alone :
  forall (s : discoveryService) (msg : ReceivedMessage) (h : HostState)
         (fn : messageProcessingFn) (active : list string),
    let tr := trace (snd (run (apply_fn fn s msg) h)) in
    lifecycle_events tr = [] /\
    unwatches tr = [] /\
    activeFilters tr active = active.
Proof.
  intros s msg h fn active tr.
  assert (Hlife : lifecycle_events tr = []).
  { subst tr. destruct fn; cbn [apply_fn].
    - rewrite processDiscoveryRequest_run. simpl_run. apply publish_outcome_lifecycle.
    - destruct (accepted_trace_shape s msg h)
        as [Hnil | [(src & key & e0 & _ & _ & Htr) | (src & key & h1 & _ & _ & _ & Htr)]];
        cbv zeta in *.
      + rewrite Hnil. reflexivity.
      + rewrite Htr. reflexivity.
      + rewrite Htr. cbn [lifecycle_events filter]. apply publish_outcome_lifecycle. }
  split; [exact Hlife|]. split.
  - clear - Hlife. induction tr as [|e tr IH]; [reflexivity|].
    destruct e; cbn in Hlife; try discriminate Hlife; cbn [unwatches flat_map app];
      apply IH; exact Hlife.
  - apply activeFilters_without_lifecycle. exact Hlife.
Qed.

(** A publish gives one record to [NewSentMessage]: the one it wraps. *)
Lemma publish_outcome_built :
  forall (mp : MessageParams) (logFormat : string) (h : HostState),
    built (snd (publish_outcome mp logFormat h)) = [mp].
Proof.
  intros mp logFormat h.
  destruct (publish_outcome_cases mp logFormat h)
    as [(env & e & _ & Htr) | [(env & e & _ & Htr) | (env & _ & Htr)]];
    cbv zeta in Htr; rewrite Htr; reflexivity.
Qed.

(** The records the accept handler gives to [NewSentMessage] are those it
    gives to [Wrap]. *)
Lemma accepted_built :
  forall (s : discoveryService) (msg : ReceivedMessage) (h : HostState),
    let tr := trace (snd (run (processServerAcceptedRequest s msg) h)) in
    built tr = submitted tr.
Proof.
  intros s msg h tr.
  destruct (accepted_trace_shape s msg h)
    as [Hnil | [(src & key & e0 & _ & _ & Htr) | (src & key & h1 & _ & _ & _ & Htr)]];
    fold tr in Hnil || fold tr in Htr.
  - rewrite Hnil. reflexivity.
  - rewrite Htr. reflexivity.
  - rewrite Htr.
    change (built (?e :: ?t)) with (built t).
    change (submitted (?e :: ?t)) with (submitted t).
    match goal with
    | |- context [publish_outcome ?mp ?f ?h] =>
      rewrite (publish_outcome_built mp f h), (proj1 (publish_outcome_trace mp f h))
    end.
    reflexivity.
Qed.

(** The parameters of the messages.  A handler gives to [Wrap] the very
    records it has given to [NewSentMessage], the discovery handler exactly
    one; and every such record is addressed to the sender of the message
    being handled, keyed by the protocol key, has the configured minimum
    proof-of-work and the work budget of five, and a TTL that fits 32 bits
    and is the configured TTL modulo 2^32. *)
Theorem submitted_messages_parameters :
  forall (s : discoveryService) (msg : ReceivedMessage) (h : HostState)
         (fn : messageProcessingFn),
    let tr := trace (snd (run (apply_fn fn s msg) h)) in
    built tr = submitted tr /\
    List.length (built (trace (snd (run (processDiscoveryRequest s msg) h)))) = 1 /\
    Forall (fun mp =>
              Dst mp = msg_Src msg /\
              KeySym mp = protocolKey (server s) /\
              PoW mp = config_MinimumPoW (config (server s)) /\
              WorkTime mp = 5%Z /\
              (0 <= TTL mp < 2 ^ 32)%Z /\
              (TTL mp mod 2 ^ 32 = config_TTL (config (server s)) mod 2 ^ 32)%Z)
           (built tr).
Proof.
  intros s msg h fn tr.
  assert (Hmsg : forall dst topicName payload,
             let mp := protocolMessage s dst topicName payload in
             KeySym mp = protocolKey (server s) /\
             PoW mp = config_MinimumPoW (config (server s)) /\
             WorkTime mp = 5%Z /\
             (0 <= TTL mp < 2 ^ 32)%Z /\
             (TTL mp mod 2 ^ 32 = config_TTL (config (server s)) mod 2 ^ 32)%Z).
  { intros dst topicName payload. cbn [protocolMessage KeySym PoW WorkTime TTL].
    unfold uint32. repeat split.
    - apply Z.mod_pos_bound. lia.
    - apply Z.mod_pos_bound. lia.
    - apply Z.mod_mod. lia. }
  assert (Hdisc : built (trace (snd (run (processDiscoveryRequest s msg) h)))
                  = [protocolMessage s (msg_Src msg) topicProposeServer
                       (proposePayload (nodeID (server s)))]).
  { rewrite processDiscoveryRequest_run. simpl_run. apply publish_outcome_built. }
  assert (Hsubd : submitted (trace (snd (run (processDiscoveryRequest s msg) h)))
                  = [protocolMessage s (msg_Src msg) topicProposeServer
                       (proposePayload (nodeID (server s)))]).
  { rewrite processDiscoveryRequest_run. simpl_run.
    match goal with
    | |- context [publish_outcome ?mp ?f ?h] =>
      exact (proj1 (publish_outcome_trace mp f h))
    end. }
  split; [|split].
  - subst tr. destruct fn; cbn [apply_fn].
    + rewrite Hdisc, Hsubd. reflexivity.
    + apply accepted_built.
  - rewrite Hdisc. reflexivity.
  - subst tr. destruct fn; cbn [apply_fn].
    + rewrite Hdisc. constructor; [|constructor]. split; [reflexivity | apply Hmsg].
    + pose proof (accepted_built s msg h) as Hb. cbv zeta in Hb. rewrite Hb.
      destruct (accepted_submitted s msg h) as [Hnil | (src & key & Hsrc & Hsub)];
        cbv zeta in *.
      * rewrite Hnil. constructor.
      * rewrite Hsub. constructor; [|constructor].
        split; [symmetry; exact Hsrc | apply Hmsg].
Qed.

(** [Start] leaves the server of the service as it is. *)
Lemma Start_keeps_server :
  forall (s : discoveryService) (h : HostState),
    server (fst (fst (run (Start s) h))) = server s.
Proof.
  intros s h. unfold Start. unfold_service.
  destruct (installTopicFilter topicDiscoverServer (protocolKey (server s)) h)
    as [[id1 err1] h1].
  simpl_run. destruct err1 as [e1|]; simpl_run; [reflexivity|].
  cbn [set_discoverFilterID server discoverFilterID].
  destruct (installTopicFilter topicServerAccepted (protocolKey (server s)) h1)
    as [[id2 err2] h2].
  simpl_run. destruct err2 as [e2|]; reflexivity.
Qed.

(** The handlers do not look at the filter IDs of the service: on the
    service as [Start] leaves it, whatever the installations returned, a
    handler does what it does on the service before [Start].  Nothing in a
    handler tells a started service from one that is not. *)
Theorem handlers_ignore_lifecycle_state :
  forall (s : discoveryService) (msg : ReceivedMessage) (h h0 : HostState)
         (fn : messageProcessingFn),
    run (apply_fn fn (fst (fst (run (Start s) h0))) msg) h = run (apply_fn fn s msg) h.
Proof.
  intros s msg h h0 fn.
  pose proof (Start_keeps_server s h0) as Hsrv.
  destruct fn; cbn [apply_fn].
  - unfold processDiscoveryRequest. rewrite Hsrv. reflexivity.
  - unfold processServerAcceptedRequest. rewrite Hsrv. reflexivity.
Qed.

(** The descriptors registered over two traces in a row. *)
Lemma registrations_app :
  forall tr1 tr2 : list Event,
    registrations (tr1 ++ tr2) = registrations tr1 ++ registrations tr2.
Proof. intros tr1 tr2. unfold registrations. apply flat_map_app. Qed.

(** An accept message for this server from a present sender is registered,
    whatever the host. *)
Lemma accepted_registrations :
  forall (s : discoveryService) (msg : ReceivedMessage) (src : PublicKey)
         (pm : parsedMessage) (h : HostState),
    msg_Src msg = Some src ->
    json_Unmarshal (msg_Payload msg) parsedMessage_zero = (pm, None) ->
    ServerID pm = ("0x" ++ nodeID (server s))%string ->
    registrations (trace (snd (run (processServerAcceptedRequest s msg) h)))
    = [sessionOf src].
Proof.
  intros s msg src pm h Hsrc Hj Hid.
  destruct (RegisterClientSession (sessionOf src) h) as [[sessionKey rerr] h1] eqn:Hreg.
  destruct rerr as [e|].
  - rewrite (accepted_registry_error s msg h pm src sessionKey e h1 Hj Hsrc Hid Hreg).
    reflexivity.
  - rewrite (accepted_registered s msg h pm src sessionKey h1 Hj Hsrc Hid Hreg).
    simpl_run. change (registrations (?e :: ?t)) with (sessionOf src :: registrations t).
    match goal with
    | |- context [publish_outcome ?mp ?f ?h] =>
      rewrite (proj1 (proj2 (publish_outcome_trace mp f h)))
    end.
    reflexivity.
Qed.

(** The accept handler does not recognise a message it has seen: when the
    same accept message for this server is delivered twice, the registry is
    called twice with the same descriptor, whatever the first delivery came
    to. *)
Theorem accepted_twice_registers_twice :
  forall (s : discoveryService) (msg : ReceivedMessage) (src : PublicKey)
         (pm : parsedMessage) (h : HostState),
    msg_Src msg = Some src ->
    json_Unmarshal (msg_Payload msg) parsedMessage_zero = (pm, None) ->
    ServerID pm = ("0x" ++ nodeID (server s))%string ->
    let twice := bind (processServerAcceptedRequest s msg) (fun r1 =>
                 bind (processServerAcceptedRequest s msg) (fun r2 => ret (r1, r2))) in
    registrations (trace (snd (run twice h))) = [sessionOf src; sessionOf src].
Proof.
  intros s msg src pm h Hsrc Hj Hid twice. subst twice.
  rewrite run_bind.
  2:{ intros a. apply framed_bind; [apply framed_processServerAcceptedRequest|].
      intros b. apply framed_ret. }
  cbn [snd trace]. rewrite registrations_app.
  rewrite (accepted_registrations s msg src pm h Hsrc Hj Hid).
  rewrite run_bind; [|intros a; apply framed_ret].
  cbn [snd trace]. rewrite registrations_app.
  rewrite (accepted_registrations s msg src pm _ Hsrc Hj Hid).
  reflexivity.
Qed.

End Handlers.

(* ================================================================= *)
(** ** The payloads on the wire *)

(** What being plain means for the scanner and for unquoting. *)
Lemma plain_ascii_facts :
  forall c : ascii, plain_ascii c = true ->
    (c =? dquote)%char = false /\ (c =? "\")%char = false /\
    (N_of_ascii c <? 32)%N = false /\ (N_of_ascii c <? 128)%N = true.
Proof.
  intros c H. unfold plain_ascii in H.
  apply andb_true_iff in H. destruct H as [H Hb].
  apply andb_true_iff in H. destruct H as [H Hq].
  apply andb_true_iff in H. destruct H as [Hlo Hhi].
  apply negb_true_iff in Hb, Hq. apply N.leb_le in Hlo.
  repeat split; try assumption. apply N.ltb_ge. exact Hlo.
Qed.

(** Plain text followed by a quote is scanned up to the quote. *)
Lemma scan_string_plain :
  forall (a rest : string), plain_text a = true ->
    scan_string (a ++ String dquote rest) = Some (a, rest).
Proof.
  induction a as [|c a IH]; intros rest H.
  - reflexivity.
  - cbn [plain_text] in H. apply andb_true_iff in H. destruct H as [Hc Ha].
    destruct (plain_ascii_facts c Hc) as (Hq & Hb & Hlo & _).
    cbn [append scan_string]. rewrite Hq, Hb, Hlo, (IH rest Ha). reflexivity.
Qed.

(** Plain text is its own unquoted form. *)
Lemma unquote_plain :
  forall a : string, plain_text a = true -> unquote a = Some a.
Proof.
  intros a. unfold unquote. generalize (le_n (String.length a)).
  generalize (String.length a) at 2 3 as fuel.
  induction a as [|c a IH]; intros fuel Hlen H.
  - destruct fuel; reflexivity.
  - cbn [String.length] in Hlen. destruct fuel as [|fuel]; [lia|].
    cbn [plain_text] in H. apply andb_true_iff in H. destruct H as [Hc Ha].
    destruct (plain_ascii_facts c Hc) as (Hq & Hb & Hlo & Hhi).
    cbn [unquote_from]. rewrite Hb, Hq, Hlo, Hhi. cbn [orb].
    rewrite (IH fuel); [reflexivity | lia | exact Ha].
Qed.

Lemma plain_text_app :
  forall a b : string, plain_text (a ++ b) = plain_text a && plain_text b.
Proof.
  induction a as [|c a IH]; intros b; [reflexivity|].
  cbn [append plain_text]. rewrite IH. apply andb_assoc.
Qed.

(** The payload of a proposal for a plain identity is a JSON document: an
    object with the one member [server]. *)
Lemma proposePayload_parses :
  forall id : string, plain_text id = true ->
    parse_document (proposePayload id)
    = Some (JObject [("server"%string, JString ("0x" ++ id)%string)]).
Proof.
  intros id Hid. unfold parse_document, proposePayload.
  remember (2 * String.length (jq "{'server': '0x" ++ id ++ jq "'}") + 2) as fuel eqn:Hfuel.
  simpl in Hfuel.
  destruct fuel as [|[|[|fuel]]]; try lia.
  simpl. rewrite (scan_string_plain id _ Hid). reflexivity.
Qed.

(** Hexadecimal digits are plain, so a hexadecimal string is plain text. *)
Lemma hex_EncodeToString_plain :
  forall b : bytes, plain_text (hex_EncodeToString b) = true.
Proof.
  induction b as [|x b IH]; [reflexivity|].
  cbn [hex_EncodeToString plain_text]. rewrite IH.
  destruct x; reflexivity.
Qed.

(** The two digits of a byte give the byte back. *)
Lemma hex_digits_of_byte :
  forall x : byte,
    (hex_val (hex_digit (N.shiftr (Byte.to_N x) 4)) * 16
     + hex_val (hex_digit (N.land (Byte.to_N x) 15)))%N = Byte.to_N x.
Proof. intros x. destruct x; reflexivity. Qed.

(** [hex.EncodeToString] doubles the length and loses nothing: different
    byte strings have different encodings. *)
Lemma hex_EncodeToString_length :
  forall b : bytes, String.length (hex_EncodeToString b) = 2 * List.length b.
Proof.
  induction b as [|x b IH]; [reflexivity|].
  cbn [hex_EncodeToString String.length List.length]. rewrite IH. lia.
Qed.

Lemma hex_EncodeToString_inj :
  forall a b : bytes, hex_EncodeToString a = hex_EncodeToString b -> a = b.
Proof.
  induction a as [|x a IH]; intros [|y b] H; cbn [hex_EncodeToString] in H;
    try discriminate H; [reflexivity|].
  injection H as Hhi Hlo Hrest.
  assert (Hhi' : hex_digit (N.shiftr (Byte.to_N x) 4) = hex_digit (N.shiftr (Byte.to_N y) 4))
    by exact Hhi.
  assert (Hlo' : hex_digit (N.land (Byte.to_N x) 15) = hex_digit (N.land (Byte.to_N y) 15))
    by exact Hlo.
  assert (Hxy : Byte.to_N x = Byte.to_N y).
  { rewrite <- (hex_digits_of_byte x), <- (hex_digits_of_byte y), Hhi', Hlo'. reflexivity. }
  assert (Heq : x = y).
  { apply (f_equal Byte.of_N) in Hxy. rewrite !Byte.of_to_N in Hxy.
    injection Hxy as ->. reflexivity. }
  rewrite Heq, (IH b Hrest). reflexivity.
Qed.

(** The payload of an acknowledgment for a plain identity is a JSON
    document, whatever the session key: an object with the members
    [server] and [key]. *)
Lemma ackPayload_parses :
  forall (id : string) (sessionKey : bytes), plain_text id = true ->
    parse_document (ackPayload id sessionKey)
    = Some (JObject [("server"%string, JString ("0x" ++ id)%string);
                     ("key"%string, JString ("0x" ++ hex_EncodeToString sessionKey)%string)]).
Proof.
  intros id sessionKey Hid. unfold parse_document, ackPayload.
  remember (2 * String.length (jq "{'server': '0x" ++ id ++ jq "', 'key': '0x"
                               ++ hex_EncodeToString sessionKey ++ jq "'}") + 2)
    as fuel eqn:Hfuel.
  simpl in Hfuel.
  destruct fuel as [|[|[|[|fuel]]]]; try lia.
  simpl. rewrite (scan_string_plain id _ Hid).
  simpl. rewrite (scan_string_plain _ _ (hex_EncodeToString_plain sessionKey)).
  reflexivity.
Qed.

(** Decoding the payload of a proposal gives the identity that the accept
    handler compares with. *)
Lemma proposePayload_decodes :
  forall id : string, plain_text id = true ->
    json_Unmarshal (bytes_of_string (proposePayload id)) parsedMessage_zero
    = ({| ServerID := ("0x" ++ id)%string |}, None).
Proof.
  intros id Hid. unfold json_Unmarshal, string_of_bytes, bytes_of_string.
  rewrite string_of_list_byte_of_string, (proposePayload_parses id Hid).
  cbn [store_members].
  change (unquote "server") with (Some "server"%string).
  change (selects_ServerID "server") with true.
  cbn [store_string].
  rewrite unquote_plain; [reflexivity|].
  cbn [append plain_text]. rewrite Hid. reflexivity.
Qed.

Section Wire.
Context {P : Platform} {C : Collaborators}.

(** The proposal of a server is an accept message for it.  When the
    identity of the node is plain text, the payload that the discovery
    handler publishes, sent back unchanged by a client as the payload of an
    accept message, makes this server register that client. *)
Theorem proposal_sent_back_is_accepted :
  forall (s : discoveryService) (discover accept : ReceivedMessage) (src : PublicKey)
         (h0 h : HostState) (mp : MessageParams),
    plain_text (nodeID (server s)) = true ->
    In mp (submitted (trace (snd (run (processDiscoveryRequest s discover) h0)))) ->
    msg_Payload accept = Payload mp ->
    msg_Src accept = Some src ->
    registrations (trace (snd (run (processServerAcceptedRequest s accept) h)))
    = [ {| ClientKey := hex_EncodeToString (crypto_FromECDSAPub src) |} ].
Proof.
  intros s discover accept src h0 h mp Hplain Hin Hpay Hsrc.
  rewrite processDiscoveryRequest_run in Hin. simpl_run.
  match type of Hin with
  | context [publish_outcome ?m ?f ?h] =>
    rewrite (proj1 (publish_outcome_trace m f h)) in Hin
  end.
  destruct Hin as [<- | []]. cbn [Payload protocolMessage] in Hpay.
  apply (accepted_registrations s accept src {| ServerID := "0x" ++ nodeID (server s) |} h).
  - exact Hsrc.
  - rewrite Hpay. apply proposePayload_decodes. exact Hplain.
  - reflexivity.
Qed.

(** A server leaves alone what is meant for another.  The payload that the
    discovery handler of one server publishes, sent back as an accept
    message, is ignored by a server with another identity: it returns nil
    and makes no call. *)
Theorem proposal_of_another_server_is_ignored :
  forall (s other : discoveryService) (discover accept : ReceivedMessage) (src : PublicKey)
         (h0 h : HostState) (mp : MessageParams),
    plain_text (nodeID (server other)) = true ->
    nodeID (server other) <> nodeID (server s) ->
    In mp (submitted (trace (snd (run (processDiscoveryRequest other discover) h0)))) ->
    msg_Payload accept = Payload mp ->
    msg_Src accept = Some src ->
    run (processServerAcceptedRequest s accept) h = (None, {| host := h; trace := [] |}).
Proof.
  intros s other discover accept src h0 h mp Hplain Hneq Hin Hpay Hsrc.
  rewrite processDiscoveryRequest_run in Hin. simpl_run.
  match type of Hin with
  | context [publish_outcome ?m ?f ?h] =>
    rewrite (proj1 (publish_outcome_trace m f h)) in Hin
  end.
  destruct Hin as [<- | []]. cbn [Payload protocolMessage] in Hpay.
  apply (accepted_other_server s accept h
           {| ServerID := "0x" ++ nodeID (server other) |} src).
  - rewrite Hpay. apply proposePayload_decodes. exact Hplain.
  - exact Hsrc.
  - cbn [ServerID append]. intros Heq. apply Hneq. injection Heq as Heq. exact Heq.
Qed.

End Wire.

Section Acknowledgment.
Context {P : Platform} {C : Collaborators}.

(** The acknowledgment is well-formed whatever the session key.  The
    accept handler gives to [Wrap] the very records it has given to
    [NewSentMessage], and when the identity of the node is plain text the
    payload of every such record is a JSON document: an object whose member
    [server] is the identity with the prefix 0x and whose member [key] is,
    with the prefix 0x, the hexadecimal form of the session key that the
    registry returned for the sender; that form stands for no other key. *)
Theorem acknowledgment_payload_is_json :
  forall (s : discoveryService) (msg : ReceivedMessage) (h : HostState),
    plain_text (nodeID (server s)) = true ->
    let tr := trace (snd (run (processServerAcceptedRequest s msg) h)) in
    built tr = submitted tr /\
    forall mp : MessageParams,
      In mp (built tr) ->
      exists (src : PublicKey) (sessionKey : bytes),
        msg_Src msg = Some src /\
        In (EvRegisterClientSession
              {| ClientKey := hex_EncodeToString (crypto_FromECDSAPub src) |}
              sessionKey None) tr /\
        parse_document (string_of_bytes (Payload mp))
        = Some (JObject
                  [("server"%string, JString ("0x" ++ nodeID (server s))%string);
                   ("key"%string,
                    JString ("0x" ++ hex_EncodeToString sessionKey)%string)]) /\
        (forall k : bytes,
           hex_EncodeToString k = hex_EncodeToString sessionKey -> k = sessionKey).
Proof.
  intros s msg h Hplain tr. split; [apply accepted_built|].
  intros mp Hin.
  destruct (accepted_trace_shape s msg h)
    as [Hnil | [(src & key & e0 & Hsrc & _ & Htr)
               | (src & key & h1 & Hsrc & _ & _ & Htr)]];
    fold tr in Hnil || fold tr in Htr.
  - rewrite Hnil in Hin. destruct Hin.
  - rewrite Htr in Hin. destruct Hin.
  - exists src, key. split; [exact Hsrc|]. split; [rewrite Htr; left; reflexivity|].
    rewrite Htr in Hin. change (built (?e :: ?t)) with (built t) in Hin.
    rewrite publish_outcome_built in Hin.
    destruct Hin as [<- | []]. cbn [Payload protocolMessage].
    unfold string_of_bytes, bytes_of_string. rewrite string_of_list_byte_of_string.
    split; [apply ackPayload_parses; exact Hplain|].
    intros k Hk. apply hex_EncodeToString_inj. exact Hk.
Qed.

(** Senders are told apart by their keys.  Two accept messages for this
    server from senders whose marshalled public keys differ are registered
    under different client keys, and a client key has twice as many
    characters as the marshalled key has bytes. *)
Theorem distinct_senders_distinct_client_keys :
  forall (s : discoveryService) (m1 m2 : ReceivedMessage) (src1 src2 : PublicKey)
         (pm1 pm2 : parsedMessage) (h1 h2 : HostState),
    msg_Src m1 = Some src1 ->
    json_Unmarshal (msg_Payload m1) parsedMessage_zero = (pm1, None) ->
    ServerID pm1 = ("0x" ++ nodeID (server s))%string ->
    msg_Src m2 = Some src2 ->
    json_Unmarshal (msg_Payload m2) parsedMessage_zero = (pm2, None) ->
    ServerID pm2 = ("0x" ++ nodeID (server s))%string ->
    crypto_FromECDSAPub src1 <> crypto_FromECDSAPub src2 ->
    let regs1 := registrations (trace (snd (run (processServerAcceptedRequest s m1) h1))) in
    let regs2 := registrations (trace (snd (run (processServerAcceptedRequest s m2) h2))) in
    regs1 <> regs2 /\
    Forall (fun cs => String.length (ClientKey cs)
                      = 2 * List.length (crypto_FromECDSAPub src1)) regs1.
Proof.
  intros s m1 m2 src1 src2 pm1 pm2 h1 h2 Hs1 Hj1 Hi1 Hs2 Hj2 Hi2 Hneq regs1 regs2.
  subst regs1 regs2.
  rewrite (accepted_registrations s m1 src1 pm1 h1 Hs1 Hj1 Hi1).
  rewrite (accepted_registrations s m2 src2 pm2 h2 Hs2 Hj2 Hi2).
  split.
  - intros Heq. injection Heq as Heq. apply Hneq.
    apply hex_EncodeToString_inj. exact Heq.
  - constructor; [|constructor]. cbn [sessionOf ClientKey].
    apply hex_EncodeToString_length.
Qed.

End Acknowledgment.

(* ================================================================= *)
(** ** The further properties on the small hosts *)

Lemma Start_success_witness :
  activeFilters
    (trace (snd (run (Start (P := toyPlatform) (C := toyCollaborators) toy_service) toy_ok)))
    []
  = ["filter/DISCOVER_NOTIFICATION_SERVER"%string; "filter/ACCEPT_NOTIFICATION_SERVER"%string].
Proof.
  exact (proj1 (proj2 (proj2 (proj2 (proj2
    (Start_success (P := toyPlatform) (C := toyCollaborators) toy_service toy_ok
       (toy_set_filters toy_ok ["filter/DISCOVER_NOTIFICATION_SERVER"%string])
       (toy_set_filters toy_ok ["filter/DISCOVER_NOTIFICATION_SERVER"%string;
                                "filter/ACCEPT_NOTIFICATION_SERVER"%string])
       "filter/DISCOVER_NOTIFICATION_SERVER" "filter/ACCEPT_NOTIFICATION_SERVER"
       eq_refl eq_refl)))))).
Defined.

Lemma Start_first_filter_fails_witness :
  trace (snd (run (Start (P := toyPlatform) (C := toyRefusingCollaborators) toy_service)
                  toy_ok))
  = [EvInstallTopicFilter topicDiscoverServer [x4b] EmptyString
       (Some (collaboratorError "cannot install filter"))].
Proof.
  exact (proj1 (proj2
    (Start_first_filter_fails (P := toyPlatform) (C := toyRefusingCollaborators)
       toy_service toy_ok toy_ok EmptyString (collaboratorError "cannot install filter")
       eq_refl))).
Defined.

Lemma Start_twice_leaks_first_filters_witness :
  activeFilters
    (trace (snd (run (bind (Start (P := toyPlatform) (C := toyFreshCollaborators) toy_service)
                        (fun r1 => bind (Start (C := toyFreshCollaborators) (fst r1))
                                     (fun r2 => Stop (C := toyFreshCollaborators) (fst r2))))
                     toy_ok))) []
  = ["DISCOVER_NOTIFICATION_SERVERa"%string; "ACCEPT_NOTIFICATION_SERVERb"%string].
Proof.
  refine (proj2 (proj2
    (Start_twice_leaks_first_filters (P := toyPlatform) (C := toyFreshCollaborators)
       toy_service toy_ok
       (toy_set_filters toy_ok ["DISCOVER_NOTIFICATION_SERVERa"%string])
       (toy_set_filters toy_ok ["DISCOVER_NOTIFICATION_SERVERa"%string;
                                "ACCEPT_NOTIFICATION_SERVERb"%string])
       (toy_set_filters toy_ok ["DISCOVER_NOTIFICATION_SERVERa"%string;
                                "ACCEPT_NOTIFICATION_SERVERb"%string;
                                "DISCOVER_NOTIFICATION_SERVERc"%string])
       (toy_set_filters toy_ok ["DISCOVER_NOTIFICATION_SERVERa"%string;
                                "ACCEPT_NOTIFICATION_SERVERb"%string;
                                "DISCOVER_NOTIFICATION_SERVERc"%string;
                                "ACCEPT_NOTIFICATION_SERVERd"%string])
       "DISCOVER_NOTIFICATION_SERVERa" "ACCEPT_NOTIFICATION_SERVERb"
       "DISCOVER_NOTIFICATION_SERVERc" "ACCEPT_NOTIFICATION_SERVERd"
       eq_refl eq_refl eq_refl eq_refl _ _ _ _))); discriminate.
Defined.

Lemma processDiscoveryRequest_failures_witness :
  fst (run (processDiscoveryRequest (P := toyPlatform) (C := toyCollaborators) toy_service
              (toy_message EmptyString (Some toy_client))) toy_send_fails)
  = Some (fmt_Errorf "failed to send server proposal message: %v"
            (collaboratorError "envelope rejected")).
Proof.
  refine (proj1 (proj1 (proj2
    (processDiscoveryRequest_failures (P := toyPlatform) (C := toyCollaborators)
       toy_service (toy_message EmptyString (Some toy_client)) toy_send_fails))
    (Some (bytes_of_string (proposePayload "abcd")))
    (collaboratorError "envelope rejected") _)).
  vm_compute. right. right. left. reflexivity.
Defined.

Lemma processDiscoveryRequest_ignores_payload_witness :
  run (processDiscoveryRequest (P := toyPlatform) (C := toyCollaborators) toy_service
         (toy_message "anything" (Some toy_client))) toy_ok
  = run (processDiscoveryRequest (P := toyPlatform) (C := toyCollaborators) toy_service
           (toy_message "{}" (Some toy_client))) toy_ok.
Proof.
  exact (processDiscoveryRequest_ignores_payload (P := toyPlatform) (C := toyCollaborators)
           toy_service (toy_message "anything" (Some toy_client))
           (toy_message "{}" (Some toy_client)) toy_ok eq_refl).
Defined.


Lemma accepted_twice_registers_twice_witness :
  registrations
    (trace (snd (run (bind (processServerAcceptedRequest
                              (P := toyPlatform) (C := toyCollaborators) toy_service toy_accept)
                        (fun r1 => bind (processServerAcceptedRequest
                                           (C := toyCollaborators) toy_service toy_accept)
                                     (fun r2 => ret (r1, r2))))
                     toy_ok)))
  = [ {| ClientKey := "04c1" |}; {| ClientKey := "04c1" |} ].
Proof.
  exact (accepted_twice_registers_twice (P := toyPlatform) (C := toyCollaborators)
           toy_service toy_accept toy_client {| ServerID := "0xabcd" |} toy_ok
           eq_refl eq_refl eq_refl).
Defined.

Lemma proposal_sent_back_is_accepted_witness :
  registrations
    (trace (snd (run (processServerAcceptedRequest (P := toyPlatform) (C := toyCollaborators)
                        toy_service
                        {| msg_Payload := Payload (toy_proposal toy_service);
                           msg_Src := Some toy_client2 |})
                     toy_ok)))
  = [ {| ClientKey := "04c2" |} ].
Proof.
  exact (proposal_sent_back_is_accepted (P := toyPlatform) (C := toyCollaborators)
           toy_service (toy_message EmptyString (Some toy_client))
           {| msg_Payload := Payload (toy_proposal toy_service); msg_Src := Some toy_client2 |}
           toy_client2 toy_ok toy_ok (toy_proposal toy_service)
           eq_refl (or_introl eq_refl) eq_refl eq_refl).
Defined.

Lemma proposal_of_another_server_is_ignored_witness :
  run (processServerAcceptedRequest (P := toyPlatform) (C := toyCollaborators) toy_service
         {| msg_Payload := Payload (toy_proposal toy_other_service);
            msg_Src := Some toy_client |})
      toy_ok
  = (None, @Build_World toyPlatform toy_ok []).
Proof.
  refine (proposal_of_another_server_is_ignored (P := toyPlatform) (C := toyCollaborators)
            toy_service toy_other_service (toy_message EmptyString (Some toy_client))
            {| msg_Payload := Payload (toy_proposal toy_other_service);
               msg_Src := Some toy_client |}
            toy_client toy_ok toy_ok (toy_proposal toy_other_service)
            eq_refl _ (or_introl eq_refl) eq_refl eq_refl).
  vm_compute. discriminate.
Defined.

Lemma acknowledgment_payload_is_json_witness :
  exists (src : @PublicKey toyPlatform) (sessionKey : bytes),
    msg_Src toy_accept = Some src /\
    parse_document (ackPayload "abcd" [x01; xab])
    = Some (JObject
              [("server"%string, JString "0xabcd");
               ("key"%string, JString ("0x" ++ hex_EncodeToString sessionKey)%string)]).
Proof.
  destruct (proj2 (acknowledgment_payload_is_json (P := toyPlatform) (C := toyCollaborators)
                     toy_service toy_accept toy_ok eq_refl)
              (protocolMessage (P := toyPlatform) (C := toyCollaborators) toy_service
                 (Some toy_client) topicAckClientSubscription (ackPayload "abcd" [x01; xab]))
              (or_introl eq_refl))
    as (src & sessionKey & Hsrc & _ & Hparse & _).
  exists src, sessionKey. split; [exact Hsrc|].
  cbn [Payload protocolMessage] in Hparse.
  unfold string_of_bytes, bytes_of_string in Hparse.
  rewrite string_of_list_byte_of_string in Hparse. exact Hparse.
Defined.

Lemma distinct_senders_distinct_client_keys_witness :
  registrations
    (trace (snd (run (processServerAcceptedRequest (P := toyPlatform) (C := toyCollaborators)
                        toy_service toy_accept) toy_ok)))
  <> registrations
       (trace (snd (run (processServerAcceptedRequest
                           (P := toyPlatform) (C := toyCollaborators) toy_service
                           (toy_message (jq "{'server': '0xabcd'}") (Some toy_client2)))
                        toy_ok))).
Proof.
  refine (proj1
    (distinct_senders_distinct_client_keys (P := toyPlatform) (C := toyCollaborators)
       toy_service toy_accept (toy_message (jq "{'server': '0xabcd'}") (Some toy_client2))
       toy_client toy_client2 {| ServerID := "0xabcd" |} {| ServerID := "0xabcd" |}
       toy_ok toy_ok eq_refl eq_refl eq_refl eq_refl eq_refl eq_refl _)).
  vm_compute. discriminate.
Defined.
